(** * TensorComparativeVis front-end: the dashboard store and the brush selection

    A shallow embedding of the Zustand store ([dashboardStore.ts]) and of the
    scatter plot's [handleBrushEnd] callback ([ScatterPlot.tsx]), with the
    properties of the cluster state machine, the selection engine and the
    analysis history proved about them.

    JavaScript numbers that carry real values (coordinates, p-values, weights)
    are IEEE 754 binary64 and are modelled by Rocq's primitive [float];
    numbers that are array positions or lengths are [nat]; other integers
    are [Z].  [null] is [None]. *)

From Stdlib Require Import ZArith Floats Ascii String.
From stdpp Require Import base option list sorting strings pretty gmap.

(* Decimal literals such as 0.05 denote the nearest binary64 value, as in
   JavaScript. *)
#[local] Set Warnings "-inexact-float".

Local Open Scope string_scope.
Local Open Scope list_scope.
Local Open Scope Z_scope.

(** ** Types ([types/index.ts]) *)

Module ClassWeight.
Record t := mk { w_tg : float; w_bw : float; w_bg : float }.

(** [Partial<ClassWeight>]: every key optional. *)
Record partial := mkPartial
  { p_w_tg : option float; p_w_bw : option float; p_w_bg : option float }.

(** The object spread [{ ...w, ...weight }]. *)
Definition spread (w : t) (weight : partial) : t :=
  {| w_tg := default (w_tg w) (p_w_tg weight);
     w_bw := default (w_bw w) (p_w_bw weight);
     w_bg := default (w_bg w) (p_w_bg weight) |}.
End ClassWeight.

Module StatisticalResult.
Record t := mk
  { rack : string; variable : string; direction : string;
    mean_diff : float; p_value : float; cohen_d : float;
    significance : string; effect_size : string }.
End StatisticalResult.

Module FeatureImportance.
Record t := mk
  { rank : Z; rack : string; variable : string;
    score : float; importance : float;
    cluster1_data : list float; cluster2_data : list float;
    cluster1_time : list string; cluster2_time : list string;
    mean_diff : float;
    statistical_result : StatisticalResult.t }.
End FeatureImportance.

Module ConfigResponse.
Record colors_t := mkColors
  { class_colors : list string; cluster1 : string; cluster2 : string }.
Record t := mk
  { variables : list string; n_classes : Z;
    grid_shape : list Z; colors : colors_t }.
End ConfigResponse.

Module EmbeddingPoint.
(** [label] is [labels[index]], which is [undefined] ([None]) when the
    labels array is shorter than the embedding. *)
Record t := mk { x : float; y : float; index : nat; label : option Z }.
End EmbeddingPoint.

Module ClusterSelection.
Record t := mk { cluster1 : option (list nat); cluster2 : option (list nat) }.
End ClusterSelection.

Module InterpretationSection.
Record t := mk { title : string; text : string; highlights : list string }.
End InterpretationSection.

Definition matrix := list (list float).

(** ** The store ([store/dashboardStore.ts]) *)

Module Summary.
Record t := mk
  { significant_count : nat;
    top_variables : list string;
    top_racks : list string }.
End Summary.

Module SavedAnalysis.
(** [timestamp] is the [Date] as milliseconds since the epoch. *)
Record t := mk
  { id : string; timestamp : Z;
    cluster1_indices : list nat; cluster2_indices : list nat;
    cluster1_size : nat; cluster2_size : nat;
    top_features : list FeatureImportance.t;
    interpretation : list InterpretationSection.t;
    summary : Summary.t }.
End SavedAnalysis.

Inductive ActiveTab := tab_ranking | tab_heatmap.
Inductive InterpretationTab := tab_summary | tab_history | tab_compare.

Record DashboardState := mkDashboardState
  { config : option ConfigResponse.t;
    classWeights : list ClassWeight.t;
    selectedClass : Z;
    embeddingData : list EmbeddingPoint.t;
    scaledData : option matrix;
    Ms : option matrix;
    Mv : option matrix;
    clusters : ClusterSelection.t;
    topFeatures : option (list FeatureImportance.t);
    contributionMatrix : option matrix;
    interpretation : option (list InterpretationSection.t);
    analysisHistory : list SavedAnalysis.t;
    selectedHistoryIds : list string;
    currentFeatureIndex : Z;
    activeTab : ActiveTab;
    selectedVariable : Z;
    interpretationTab : InterpretationTab;
    isLoading : bool }.

(** Zustand's [set(partial)] merges the given keys into the state and keeps
    every other key.  One setter per key; an operation that passes several
    keys composes them. *)

Definition set_config v (st : DashboardState) : DashboardState :=
  let '(mkDashboardState _ cw sc ed sd ms mv cl tf cm ip ah sh fi tb sv itb ld) := st in
  mkDashboardState v cw sc ed sd ms mv cl tf cm ip ah sh fi tb sv itb ld.

Definition set_classWeights v (st : DashboardState) : DashboardState :=
  let '(mkDashboardState cf _ sc ed sd ms mv cl tf cm ip ah sh fi tb sv itb ld) := st in
  mkDashboardState cf v sc ed sd ms mv cl tf cm ip ah sh fi tb sv itb ld.

Definition set_selectedClass v (st : DashboardState) : DashboardState :=
  let '(mkDashboardState cf cw _ ed sd ms mv cl tf cm ip ah sh fi tb sv itb ld) := st in
  mkDashboardState cf cw v ed sd ms mv cl tf cm ip ah sh fi tb sv itb ld.

Definition set_embeddingData v (st : DashboardState) : DashboardState :=
  let '(mkDashboardState cf cw sc _ sd ms mv cl tf cm ip ah sh fi tb sv itb ld) := st in
  mkDashboardState cf cw sc v sd ms mv cl tf cm ip ah sh fi tb sv itb ld.

Definition set_scaledData v (st : DashboardState) : DashboardState :=
  let '(mkDashboardState cf cw sc ed _ ms mv cl tf cm ip ah sh fi tb sv itb ld) := st in
  mkDashboardState cf cw sc ed v ms mv cl tf cm ip ah sh fi tb sv itb ld.

Definition set_Ms v (st : DashboardState) : DashboardState :=
  let '(mkDashboardState cf cw sc ed sd _ mv cl tf cm ip ah sh fi tb sv itb ld) := st in
  mkDashboardState cf cw sc ed sd v mv cl tf cm ip ah sh fi tb sv itb ld.

Definition set_Mv v (st : DashboardState) : DashboardState :=
  let '(mkDashboardState cf cw sc ed sd ms _ cl tf cm ip ah sh fi tb sv itb ld) := st in
  mkDashboardState cf cw sc ed sd ms v cl tf cm ip ah sh fi tb sv itb ld.

Definition set_clusters v (st : DashboardState) : DashboardState :=
  let '(mkDashboardState cf cw sc ed sd ms mv _ tf cm ip ah sh fi tb sv itb ld) := st in
  mkDashboardState cf cw sc ed sd ms mv v tf cm ip ah sh fi tb sv itb ld.

Definition set_topFeatures v (st : DashboardState) : DashboardState :=
  let '(mkDashboardState cf cw sc ed sd ms mv cl _ cm ip ah sh fi tb sv itb ld) := st in
  mkDashboardState cf cw sc ed sd ms mv cl v cm ip ah sh fi tb sv itb ld.

Definition set_contributionMatrix v (st : DashboardState) : DashboardState :=
  let '(mkDashboardState cf cw sc ed sd ms mv cl tf _ ip ah sh fi tb sv itb ld) := st in
  mkDashboardState cf cw sc ed sd ms mv cl tf v ip ah sh fi tb sv itb ld.

Definition set_interpretation v (st : DashboardState) : DashboardState :=
  let '(mkDashboardState cf cw sc ed sd ms mv cl tf cm _ ah sh fi tb sv itb ld) := st in
  mkDashboardState cf cw sc ed sd ms mv cl tf cm v ah sh fi tb sv itb ld.

Definition set_analysisHistory v (st : DashboardState) : DashboardState :=
  let '(mkDashboardState cf cw sc ed sd ms mv cl tf cm ip _ sh fi tb sv itb ld) := st in
  mkDashboardState cf cw sc ed sd ms mv cl tf cm ip v sh fi tb sv itb ld.

Definition set_selectedHistoryIds v (st : DashboardState) : DashboardState :=
  let '(mkDashboardState cf cw sc ed sd ms mv cl tf cm ip ah _ fi tb sv itb ld) := st in
  mkDashboardState cf cw sc ed sd ms mv cl tf cm ip ah v fi tb sv itb ld.

Definition set_currentFeatureIndex v (st : DashboardState) : DashboardState :=
  let '(mkDashboardState cf cw sc ed sd ms mv cl tf cm ip ah sh _ tb sv itb ld) := st in
  mkDashboardState cf cw sc ed sd ms mv cl tf cm ip ah sh v tb sv itb ld.

Definition set_activeTab v (st : DashboardState) : DashboardState :=
  let '(mkDashboardState cf cw sc ed sd ms mv cl tf cm ip ah sh fi _ sv itb ld) := st in
  mkDashboardState cf cw sc ed sd ms mv cl tf cm ip ah sh fi v sv itb ld.

Definition set_selectedVariable v (st : DashboardState) : DashboardState :=
  let '(mkDashboardState cf cw sc ed sd ms mv cl tf cm ip ah sh fi tb _ itb ld) := st in
  mkDashboardState cf cw sc ed sd ms mv cl tf cm ip ah sh fi tb v itb ld.

Definition set_interpretationTab v (st : DashboardState) : DashboardState :=
  let '(mkDashboardState cf cw sc ed sd ms mv cl tf cm ip ah sh fi tb sv _ ld) := st in
  mkDashboardState cf cw sc ed sd ms mv cl tf cm ip ah sh fi tb sv v ld.

Definition set_isLoading v (st : DashboardState) : DashboardState :=
  let '(mkDashboardState cf cw sc ed sd ms mv cl tf cm ip ah sh fi tb sv itb _) := st in
  mkDashboardState cf cw sc ed sd ms mv cl tf cm ip ah sh fi tb sv itb v.


(** ** JavaScript built-ins used by the store *)

(** [a.slice(0, n)] and [a.slice(-n)]. *)
Definition slice_to {A} (n : nat) (a : list A) : list A := take n a.
Definition slice_last {A} (n : nat) (a : list A) : list A :=
  drop (length a - n)%nat a.

(** [Array.prototype.sort(cmp)].  The sort is stable (ECMAScript 2019), so
    for a consistent comparator the result is determined: elements in
    ascending [cmp] order, equal elements in their original order.  It is
    computed here by insertion from the right. *)
Fixpoint sort_insert {A} (cmp : A → A → Z) (a : A) (l : list A) : list A :=
  match l with
  | [] => [a]
  | b :: l' => if cmp a b <=? 0 then a :: l else b :: sort_insert cmp a l'
  end.

Definition array_sort {A} (cmp : A → A → Z) (l : list A) : list A :=
  foldr (sort_insert cmp) [] l.

Module JsObject.
(** A plain object [{}] used as a [Record<string, number>] counter: its own
    properties, in the order they were created.

    The model covers keys that [Object.prototype] does not define; for an
    inherited name ([inherited] below) the read [acc[k]] yields the
    inherited member instead of [undefined] and the counter no longer
    holds a number. *)
Definition t := list (string * nat).

Definition empty : t := [].

Definition inherited (k : string) : bool :=
  bool_decide (k ∈ ["constructor"; "hasOwnProperty"; "isPrototypeOf";
                    "propertyIsEnumerable"; "toLocaleString"; "toString";
                    "valueOf"; "__proto__"; "__defineGetter__";
                    "__defineSetter__"; "__lookupGetter__";
                    "__lookupSetter__"]).

(** [o[k]], [None] for [undefined]. *)
Fixpoint get (o : t) (k : string) : option nat :=
  match o with
  | [] => None
  | (k', v) :: o' => if bool_decide (k' = k) then Some v else get o' k
  end.

(** [o[k] = v]: an existing property keeps its place, a new one is
    created last. *)
Fixpoint set (o : t) (k : string) (v : nat) : t :=
  match o with
  | [] => [(k, v)]
  | (k', v') :: o' =>
      if bool_decide (k' = k) then (k, v) :: o' else (k', v') :: set o' k v
  end.

Definition digit_of (c : Ascii.ascii) : option N :=
  let n := Ascii.N_of_ascii c in
  if ((48 <=? n) && (n <=? 57))%N then Some (n - 48)%N else None.

Fixpoint parse_digits (acc : N) (s : string) : option N :=
  match s with
  | EmptyString => Some acc
  | String c s' => d ← digit_of c; parse_digits (10 * acc + d)%N s'
  end.

(** An array index is a canonical numeric string: the decimal form,
    without sign or leading zero, of an integer below [2^32 - 1]. *)
Definition array_index (k : string) : option N :=
  match k with
  | EmptyString => None
  | String c rest =>
      if Ascii.eqb c "0"
      then if bool_decide (rest = EmptyString) then Some 0%N else None
      else n ← parse_digits 0 k; if (n <? 2 ^ 32 - 1)%N then Some n else None
  end.

Definition index_value (e : string * nat) : Z :=
  Z.of_N (default 0%N (array_index e.1)).

(** [Object.entries(o)], in the order of [OrdinaryOwnPropertyKeys]: the
    array-index keys in ascending numeric order, then the other string
    keys in creation order. *)
Definition entries (o : t) : list (string * nat) :=
  array_sort (λ a b, index_value a - index_value b)
             (filter (λ e, is_Some (array_index e.1)) o)
  ++ filter (λ e, ¬ is_Some (array_index e.1)) o.
End JsObject.

(** ** Store operations *)

Definition MAX_HISTORY_SIZE : nat := 10.

Definition initialState : DashboardState :=
  {| config := None;
     classWeights := [];
     selectedClass := 0;
     embeddingData := [];
     scaledData := None;
     Ms := None;
     Mv := None;
     clusters := ClusterSelection.mk None None;
     topFeatures := None;
     contributionMatrix := None;
     interpretation := None;
     analysisHistory := [];
     selectedHistoryIds := [];
     currentFeatureIndex := 0;
     activeTab := tab_ranking;
     selectedVariable := 0;
     interpretationTab := tab_summary;
     isLoading := false |}.

Definition setConfig (c : ConfigResponse.t) (st : DashboardState) :=
  set_config (Some c) st.

Definition setSelectedClass (c : Z) (st : DashboardState) :=
  set_selectedClass c st.

Definition updateWeight (classIndex : Z) (weight : ClassWeight.partial)
    (st : DashboardState) : DashboardState :=
  set_classWeights
    (imap (λ i w, if Z.of_nat i =? classIndex
                  then ClassWeight.spread w weight else w)
          (classWeights st)) st.

Definition initializeWeights (nClasses : Z) (st : DashboardState) :=
  set_classWeights
    (replicate (Z.to_nat nClasses) (ClassWeight.mk 0 1.0 1.0)) st.

(** [point[0]] and [point[1]]; a missing coordinate is [undefined], which
    every numeric use downstream ([d3.extent], the scales, the comparisons)
    treats as [NaN] does. *)
Definition coordinate (point : list float) (i : nat) : float :=
  default nan (point !! i).

Definition setEmbeddingData (embedding : list (list float)) (labels : list Z)
    (scaledData' Ms' Mv' : matrix) (st : DashboardState) : DashboardState :=
  set_embeddingData
    (imap (λ index point,
             {| EmbeddingPoint.x := coordinate point 0;
                EmbeddingPoint.y := coordinate point 1;
                EmbeddingPoint.index := index;
                EmbeddingPoint.label := labels !! index |})
          embedding)
    (set_scaledData (Some scaledData')
       (set_Ms (Some Ms')
          (set_Mv (Some Mv')
             (* Clear history when embedding changes (new TULCA weights) *)
             (set_analysisHistory []
                (set_selectedHistoryIds [] st))))).

Definition selectCluster1 (indices : list nat) (st : DashboardState) :=
  set_clusters (ClusterSelection.mk (Some indices) None) st.

Definition selectCluster2 (indices : list nat) (st : DashboardState) :=
  set_clusters
    (ClusterSelection.mk (ClusterSelection.cluster1 (clusters st))
                         (Some indices)) st.

Definition resetClusters (st : DashboardState) : DashboardState :=
  set_clusters (ClusterSelection.mk None None)
    (set_topFeatures None
       (set_contributionMatrix None
          (set_interpretation None st))).

Definition setAnalysisResults (features : list FeatureImportance.t)
    (m : matrix) (st : DashboardState) : DashboardState :=
  set_topFeatures (Some features) (set_contributionMatrix (Some m) st).

Definition setInterpretation (sections : list InterpretationSection.t)
    (st : DashboardState) : DashboardState :=
  set_interpretation (Some sections) st.

(** *** Analysis history *)

(** [variableCounts]: the [reduce] that counts the features of each variable
    in a fresh object. *)
Definition variableCounts (features : list FeatureImportance.t) : JsObject.t :=
  foldl (λ acc f,
           let v := FeatureImportance.variable f in
           JsObject.set acc v (default 0%nat (JsObject.get acc v) + 1)%nat)
        JsObject.empty features.

Definition significantFeatures (features : list FeatureImportance.t)
    : list FeatureImportance.t :=
  filter (λ f, PrimFloat.ltb
                 (StatisticalResult.p_value
                    (FeatureImportance.statistical_result f)) 0.05 = true)
         features.

Definition sortedVars (features : list FeatureImportance.t) : list string :=
  (array_sort (λ a b : string * nat, Z.of_nat b.2 - Z.of_nat a.2)
              (JsObject.entries (variableCounts features))).*1.

Definition racks (features : list FeatureImportance.t) : list string :=
  FeatureImportance.rack <$> slice_to 5 features.

Definition analysisSummary (features : list FeatureImportance.t) : Summary.t :=
  {| Summary.significant_count := length (significantFeatures features);
     Summary.top_variables := slice_to 3 (sortedVars features);
     Summary.top_racks := racks features |}.

(** The snapshot built by [saveCurrentAnalysis].  [now] is [Date.now()],
    [rnd] is [Math.random().toString(36).substr(2, 9)] and [date] is
    [new Date()]: the three readings of the environment. *)
Definition newAnalysis (now : Z) (rnd : string) (date : Z)
    (c1 c2 : list nat) (features : list FeatureImportance.t)
    (sections : list InterpretationSection.t) : SavedAnalysis.t :=
  {| SavedAnalysis.id := pretty now +:+ "-" +:+ rnd;
     SavedAnalysis.timestamp := date;
     SavedAnalysis.cluster1_indices := c1;
     SavedAnalysis.cluster2_indices := c2;
     SavedAnalysis.cluster1_size := length c1;
     SavedAnalysis.cluster2_size := length c2;
     SavedAnalysis.top_features := features;
     SavedAnalysis.interpretation := sections;
     SavedAnalysis.summary := analysisSummary features |}.

Definition saveCurrentAnalysis (now : Z) (rnd : string) (date : Z)
    (st : DashboardState) : DashboardState :=
  match ClusterSelection.cluster1 (clusters st),
        ClusterSelection.cluster2 (clusters st),
        topFeatures st, interpretation st with
  | Some c1, Some c2, Some features, Some sections =>
      let newHistory :=
        newAnalysis now rnd date c1 c2 features sections
          :: analysisHistory st in
      (* Keep only the most recent MAX_HISTORY_SIZE entries *)
      set_analysisHistory (slice_to MAX_HISTORY_SIZE newHistory) st
  | _, _, _, _ => st
  end.

Definition clearHistory (st : DashboardState) : DashboardState :=
  set_analysisHistory [] (set_selectedHistoryIds [] st).

Definition toggleHistorySelection (id : string) (st : DashboardState)
    : DashboardState :=
  let isSelected := bool_decide (id ∈ selectedHistoryIds st) in
  if isSelected
  then set_selectedHistoryIds
         (filter (λ hid, hid ≠ id) (selectedHistoryIds st)) st
  else
    (* Max 2 selections for comparison *)
    let newSelection := slice_last 2 (selectedHistoryIds st ++ [id]) in
    set_selectedHistoryIds newSelection st.

Definition clearHistorySelection (st : DashboardState) : DashboardState :=
  set_selectedHistoryIds [] st.

(** *** UI state *)

Definition setCurrentFeatureIndex (i : Z) (st : DashboardState) :=
  set_currentFeatureIndex i st.
Definition setActiveTab (t : ActiveTab) (st : DashboardState) :=
  set_activeTab t st.
Definition setSelectedVariable (v : Z) (st : DashboardState) :=
  set_selectedVariable v st.
Definition setInterpretationTab (t : InterpretationTab) (st : DashboardState) :=
  set_interpretationTab t st.
Definition setIsLoading (b : bool) (st : DashboardState) :=
  set_isLoading b st.

(** ** Brush selection ([components/ScatterPlot.tsx]) *)

(** The brush rectangle [[[x0, y0], [x1, y1]]] of a [D3BrushEvent]. *)
Definition BrushSelection : Type := (float * float) * (float * float).

(** [a >= b] on numbers. *)
Definition geb (a b : float) : bool := PrimFloat.leb b a.

Section Brush.
(** The two d3 functions the callback calls are library code: [d3.extent]
    over the values of an accessor, and
    [d3.scaleLinear().domain(d).range(r)]. *)
Variable d3_extent : list float → float * float.
Variable d3_scaleLinear : float * float → float * float → float → float.

(** Plot area of the component: [dimensions] minus the margins. *)
Variables innerWidth innerHeight : float.

(** The scales, from fresh data extent. *)
Definition xScale (data : list EmbeddingPoint.t) : float → float :=
  let xExtent := d3_extent (EmbeddingPoint.x <$> data) in
  let xRange := (xExtent.2 - xExtent.1)%float in
  let xPadding := (xRange * 0.15)%float in
  d3_scaleLinear ((xExtent.1 - xPadding)%float, (xExtent.2 + xPadding)%float)
                 (0%float, innerWidth).

Definition yScale (data : list EmbeddingPoint.t) : float → float :=
  let yExtent := d3_extent (EmbeddingPoint.y <$> data) in
  let yRange := (yExtent.2 - yExtent.1)%float in
  let yPadding := (yRange * 0.15)%float in
  d3_scaleLinear ((yExtent.1 - yPadding)%float, (yExtent.2 + yPadding)%float)
                 (innerHeight, 0%float).

(** [new Set(clusters.cluster1 || [])]. *)
Definition clusterSet (c : option (list nat)) : gset nat :=
  list_to_set (default [] c).

Definition has (s : gset nat) (i : nat) : bool := bool_decide (i ∈ s).

(** The callback of [embeddingData.filter]. *)
Definition brushFilter (sel : BrushSelection) (st : DashboardState)
    (d : EmbeddingPoint.t) : bool :=
  let '((x0, y0), (x1, y1)) := sel in
  let cluster1Set := clusterSet (ClusterSelection.cluster1 (clusters st)) in
  let cluster2Set := clusterSet (ClusterSelection.cluster2 (clusters st)) in
  if has cluster1Set (EmbeddingPoint.index d)
     || has cluster2Set (EmbeddingPoint.index d)
  then false
  else
    let px := xScale (embeddingData st) (EmbeddingPoint.x d) in
    let py := yScale (embeddingData st) (EmbeddingPoint.y d) in
    geb px x0 && PrimFloat.leb px x1 && geb py y0 && PrimFloat.leb py y1.

Definition brushedPoints (sel : BrushSelection) (st : DashboardState)
    : list EmbeddingPoint.t :=
  filter (λ d, brushFilter sel st d = true) (embeddingData st).

Definition selectedIndices (sel : BrushSelection) (st : DashboardState)
    : list nat :=
  EmbeddingPoint.index <$> brushedPoints sel st.

(** [handleBrushEnd(event)], as a transition of the store;
    [selection] is [event.selection].  The callback is rebuilt whenever
    [embeddingData] or [clusters] change, so the values it closes over are
    those of the current state.  Its last statement clears the brush overlay
    of the chart, which is no part of the store. *)
Definition handleBrushEnd (selection : option BrushSelection)
    (st : DashboardState) : DashboardState :=
  match selection with
  | None => st
  | Some sel =>
      if bool_decide (length (embeddingData st) = 0%nat) then st
      else
        let indices := selectedIndices sel st in
        if bool_decide (length indices = 0%nat) then st
        else
          match ClusterSelection.cluster1 (clusters st),
                ClusterSelection.cluster2 (clusters st) with
          | None, _ => selectCluster1 indices st
          | Some _, None => selectCluster2 indices st
          | Some _, Some _ => selectCluster1 indices st
          end
  end.

(** *** Everything that writes the store *)

Inductive Action :=
| SetConfig (c : ConfigResponse.t)
| SetSelectedClass (c : Z)
| UpdateWeight (classIndex : Z) (weight : ClassWeight.partial)
| InitializeWeights (nClasses : Z)
| SetEmbeddingData (embedding : list (list float)) (labels : list Z)
                   (scaledData' Ms' Mv' : matrix)
| SelectCluster1 (indices : list nat)
| SelectCluster2 (indices : list nat)
| ResetClusters
| SetAnalysisResults (features : list FeatureImportance.t) (m : matrix)
| SetInterpretation (sections : list InterpretationSection.t)
| SaveCurrentAnalysis (now : Z) (rnd : string) (date : Z)
| ClearHistory
| ToggleHistorySelection (id : string)
| ClearHistorySelection
| SetCurrentFeatureIndex (i : Z)
| SetActiveTab (t : ActiveTab)
| SetSelectedVariable (v : Z)
| SetInterpretationTab (t : InterpretationTab)
| SetIsLoading (b : bool)
| BrushEnd (selection : option BrushSelection).

Definition dispatch (st : DashboardState) (a : Action) : DashboardState :=
  match a with
  | SetConfig c => setConfig c st
  | SetSelectedClass c => setSelectedClass c st
  | UpdateWeight i w => updateWeight i w st
  | InitializeWeights n => initializeWeights n st
  | SetEmbeddingData e l sd ms mv => setEmbeddingData e l sd ms mv st
  | SelectCluster1 indices => selectCluster1 indices st
  | SelectCluster2 indices => selectCluster2 indices st
  | ResetClusters => resetClusters st
  | SetAnalysisResults f m => setAnalysisResults f m st
  | SetInterpretation s => setInterpretation s st
  | SaveCurrentAnalysis now rnd date => saveCurrentAnalysis now rnd date st
  | ClearHistory => clearHistory st
  | ToggleHistorySelection id => toggleHistorySelection id st
  | ClearHistorySelection => clearHistorySelection st
  | SetCurrentFeatureIndex i => setCurrentFeatureIndex i st
  | SetActiveTab t => setActiveTab t st
  | SetSelectedVariable v => setSelectedVariable v st
  | SetInterpretationTab t => setInterpretationTab t st
  | SetIsLoading b => setIsLoading b st
  | BrushEnd selection => handleBrushEnd selection st
  end.

(** The state after a sequence of actions. *)
Definition run (st : DashboardState) (actions : list Action) : DashboardState :=
  foldl dispatch st actions.
End Brush.

(** *** A concrete extent and linear scale

    [d3.extent] and the linear scale as d3 computes them on numbers, to run
    the callback on concrete data. *)

Definition extent_step (acc : option (float * float)) (value : float)
    : option (float * float) :=
  match acc with
  | None => if geb value value then Some (value, value) else None
  | Some (min, max) =>
      Some (if PrimFloat.ltb value min then value else min,
            if PrimFloat.ltb max value then value else max)
  end.

Definition extent (values : list float) : float * float :=
  default (nan, nan) (foldl extent_step None values).

(** [normalize(a, b)] and [interpolateNumber(a, b)] of d3. *)
Definition normalize (a b x : float) : float :=
  let b' := (b - a)%float in
  if PrimFloat.eqb b' 0 then 0.5%float
  else if PrimFloat.is_nan b' then nan
  else ((x - a) / b')%float.

Definition interpolateNumber (a b t : float) : float :=
  (a * (1 - t) + b * t)%float.

Definition scaleLinear (domain range : float * float) (x : float) : float :=
  let '(d0, d1) := domain in
  let '(r0, r1) := range in
  if PrimFloat.ltb d1 d0
  then interpolateNumber r1 r0 (normalize d1 d0 x)
  else interpolateNumber r0 r1 (normalize d0 d1 x).

(** ** Vocabulary of the properties *)

Definition cluster1Of (st : DashboardState) : option (list nat) :=
  ClusterSelection.cluster1 (clusters st).
Definition cluster2Of (st : DashboardState) : option (list nat) :=
  ClusterSelection.cluster2 (clusters st).

(** [cluster1 ∩ cluster2 = ∅], an unset slot holding no index. *)
Definition clusters_disjoint (st : DashboardState) : Prop :=
  ∀ i : nat, i ∈ default [] (cluster1Of st) → i ∈ default [] (cluster2Of st) → False.

(** cluster2 is set only if cluster1 is. *)
Definition cluster2_needs_cluster1 (st : DashboardState) : Prop :=
  is_Some (cluster2Of st) → is_Some (cluster1Of st).

(** The point index is already in one of the two clusters. *)
Definition assigned (st : DashboardState) (i : nat) : Prop :=
  i ∈ default [] (cluster1Of st) ∨ i ∈ default [] (cluster2Of st).

(** The screen position [(px, py)] lies in the rectangle, bounds included:
    [x0 ≤ px ≤ x1] and [y0 ≤ py ≤ y1] as comparisons of numbers. *)
Definition inside (sel : BrushSelection) (px py : float) : Prop :=
  PrimFloat.leb sel.1.1 px = true ∧ PrimFloat.leb px sel.2.1 = true
  ∧ PrimFloat.leb sel.1.2 py = true ∧ PrimFloat.leb py sel.2.2 = true.

(** The four inputs of a snapshot are all set. *)
Definition populated (st : DashboardState) : Prop :=
  is_Some (cluster1Of st) ∧ is_Some (cluster2Of st)
  ∧ is_Some (topFeatures st) ∧ is_Some (interpretation st).

(** Two states that differ at most in [analysisHistory]. *)
Definition same_except_history (st st' : DashboardState) : Prop :=
  config st' = config st
  ∧ classWeights st' = classWeights st
  ∧ selectedClass st' = selectedClass st
  ∧ embeddingData st' = embeddingData st
  ∧ scaledData st' = scaledData st
  ∧ Ms st' = Ms st
  ∧ Mv st' = Mv st
  ∧ clusters st' = clusters st
  ∧ topFeatures st' = topFeatures st
  ∧ contributionMatrix st' = contributionMatrix st
  ∧ interpretation st' = interpretation st
  ∧ selectedHistoryIds st' = selectedHistoryIds st
  ∧ currentFeatureIndex st' = currentFeatureIndex st
  ∧ activeTab st' = activeTab st
  ∧ selectedVariable st' = selectedVariable st
  ∧ interpretationTab st' = interpretationTab st
  ∧ isLoading st' = isLoading st.

(** The snapshot [saveCurrentAnalysis] builds in a populated state. *)
Definition snapshotOf (now : Z) (rnd : string) (date : Z) (st : DashboardState)
    : SavedAnalysis.t :=
  newAnalysis now rnd date
    (default [] (cluster1Of st)) (default [] (cluster2Of st))
    (default [] (topFeatures st)) (default [] (interpretation st)).

(** A use of the store in which [selectCluster2] is only ever given indices
    that are not in the current cluster1. *)
Fixpoint select2_disjoint (d3_extent : list float → float * float)
    (d3_scaleLinear : float * float → float * float → float → float)
    (innerWidth innerHeight : float)
    (st : DashboardState) (actions : list Action) : Prop :=
  match actions with
  | [] => True
  | a :: rest =>
      match a with
      | SelectCluster2 indices =>
          Forall (λ i : nat, i ∉ default [] (cluster1Of st)) indices
      | _ => True
      end
      ∧ select2_disjoint d3_extent d3_scaleLinear innerWidth innerHeight
          (dispatch d3_extent d3_scaleLinear innerWidth innerHeight st a) rest
  end.

(** A use of the store in which [selectCluster2] is only called while
    cluster1 is set. *)
Fixpoint select2_after_select1 (d3_extent : list float → float * float)
    (d3_scaleLinear : float * float → float * float → float → float)
    (innerWidth innerHeight : float)
    (st : DashboardState) (actions : list Action) : Prop :=
  match actions with
  | [] => True
  | a :: rest =>
      match a with
      | SelectCluster2 _ => is_Some (cluster1Of st)
      | _ => True
      end
      ∧ select2_after_select1 d3_extent d3_scaleLinear innerWidth innerHeight
          (dispatch d3_extent d3_scaleLinear innerWidth innerHeight st a) rest
  end.

(** The order a sort by ascending [key] leaves: smaller key first, equal
    keys in the order [tie]. *)
Definition sorted_by {A} (key : A → Z) (tie : A → A → Prop) (a b : A) : Prop :=
  key a < key b ∨ (key a = key b ∧ tie a b).

(** *** Ranking of variable names *)

Definition variablesOf (features : list FeatureImportance.t) : list string :=
  FeatureImportance.variable <$> features.

(** Number of features of variable [v]. *)
Definition frequency (features : list FeatureImportance.t) (v : string) : nat :=
  length (filter (λ f, FeatureImportance.variable f = v) features).

(** Position of the first occurrence of [v] in [vars] ([length vars] when
    there is none). *)
Fixpoint first_seen_in (vars : list string) (v : string) : nat :=
  match vars with
  | [] => 0%nat
  | v' :: rest => if bool_decide (v' = v) then 0%nat else S (first_seen_in rest v)
  end.

Definition first_seen (features : list FeatureImportance.t) (v : string) : nat :=
  first_seen_in (variablesOf features) v.

(** Descending frequency, ties by first-seen order. *)
Definition ranked_first_seen (features : list FeatureImportance.t)
    (a b : string) : Prop :=
  (frequency features b < frequency features a)%nat
  ∨ (frequency features a = frequency features b
     ∧ (first_seen features a < first_seen features b)%nat).

(** The order of the keys of the counting object: array indices first, by
    value, then the other names by first-seen order. *)
Definition key_before (features : list FeatureImportance.t)
    (a b : string) : Prop :=
  match JsObject.array_index a, JsObject.array_index b with
  | Some m, Some n => (m < n)%N
  | Some _, None => True
  | None, Some _ => False
  | None, None => (first_seen features a < first_seen features b)%nat
  end.

(** Descending frequency, ties by key order. *)
Definition ranked_key_order (features : list FeatureImportance.t)
    (a b : string) : Prop :=
  (frequency features b < frequency features a)%nat
  ∨ (frequency features a = frequency features b ∧ key_before features a b).

(** [result] is the first [n] names of the ranking of the variable names of
    [features] by [before]: every name once, each before the names it
    precedes in rank. *)
Definition is_ranking (before : string → string → Prop)
    (features : list FeatureImportance.t) (n : nat) (result : list string)
    : Prop :=
  ∃ all : list string,
    result = take n all
    ∧ NoDup all
    ∧ (∀ v : string, v ∈ all ↔ v ∈ variablesOf features)
    ∧ StronglySorted before all.

(** No variable name is the name of a member of [Object.prototype]. *)
Definition plain_names (features : list FeatureImportance.t) : Prop :=
  Forall (λ f, JsObject.inherited (FeatureImportance.variable f) = false)
         features.

(** No variable name is an array index. *)
Definition no_index_names (features : list FeatureImportance.t) : Prop :=
  Forall (λ f, JsObject.array_index (FeatureImportance.variable f) = None)
         features.

(** A feature counts as significant when its p-value is below 0.05. *)
Definition significant (f : FeatureImportance.t) : Prop :=
  PrimFloat.ltb (StatisticalResult.p_value
                   (FeatureImportance.statistical_result f)) 0.05 = true.

#[global] Instance select2_disjoint_dec d3_extent d3_scaleLinear
    innerWidth innerHeight (st : DashboardState) (actions : list Action) :
  Decision (select2_disjoint d3_extent d3_scaleLinear innerWidth innerHeight
              st actions).
Proof.
  revert st. induction actions as [|a actions IH]; intros st; cbn; [apply _|].
  destruct a; apply _.
Defined.

#[global] Instance select2_after_select1_dec d3_extent d3_scaleLinear
    innerWidth innerHeight (st : DashboardState) (actions : list Action) :
  Decision (select2_after_select1 d3_extent d3_scaleLinear innerWidth
              innerHeight st actions).
Proof.
  revert st. induction actions as [|a actions IH]; intros st; cbn; [apply _|].
  destruct a; apply _.
Defined.

#[global] Instance significant_dec (f : FeatureImportance.t) :
  Decision (significant f).
Proof. unfold significant. apply _. Defined.

(** ** Concrete inputs

    A five-point embedding on a 100 by 100 plot area, brush rectangles over
    it, and feature lists, on which the operations are evaluated. *)

Definition demo_embedding : list (list float) :=
  [[0; 0]; [10; 10]; [5; 5]; [2; 8]; [8; 2]]%float.

Definition demo_loaded : DashboardState :=
  setEmbeddingData demo_embedding [0; 1; 2; 0; 1] [] [] [] initialState.

(** The left half of the plot, its lower right corner, and all of it. *)
Definition left_half : BrushSelection := ((0, 0), (50, 100))%float.
Definition lower_right : BrushSelection := ((60, 60), (100, 100))%float.
Definition whole_plot : BrushSelection := ((0, 0), (100, 100))%float.

Definition demo_brush (sel : BrushSelection) (st : DashboardState)
    : DashboardState :=
  handleBrushEnd extent scaleLinear 100 100 (Some sel) st.

Definition one_filled : DashboardState := demo_brush left_half demo_loaded.
Definition both_filled : DashboardState := demo_brush lower_right one_filled.

Definition demo_feature (rack variable : string) (p_value : float)
    : FeatureImportance.t :=
  {| FeatureImportance.rank := 1;
     FeatureImportance.rack := rack;
     FeatureImportance.variable := variable;
     FeatureImportance.score := 1;
     FeatureImportance.importance := 1;
     FeatureImportance.cluster1_data := [];
     FeatureImportance.cluster2_data := [];
     FeatureImportance.cluster1_time := [];
     FeatureImportance.cluster2_time := [];
     FeatureImportance.mean_diff := 0;
     FeatureImportance.statistical_result :=
       {| StatisticalResult.rack := rack;
          StatisticalResult.variable := variable;
          StatisticalResult.direction := "higher";
          StatisticalResult.mean_diff := 0;
          StatisticalResult.p_value := p_value;
          StatisticalResult.cohen_d := 0;
          StatisticalResult.significance := "";
          StatisticalResult.effect_size := "" |} |}.

Definition demo_features : list FeatureImportance.t :=
  [ demo_feature "A1" "AirIn" 0.01; demo_feature "A2" "CPU" 0.2;
    demo_feature "B1" "CPU" 0.05; demo_feature "B2" "Water" 0.04;
    demo_feature "C1" "Water" 0.001; demo_feature "C2" "AirOut" 0.5 ]%float.

Definition demo_populated : DashboardState :=
  setInterpretation [] (setAnalysisResults demo_features [] both_filled).

(** Two variables named by numbers, each seen once, ["2"] first. *)
Definition numeric_features : list FeatureImportance.t :=
  [ demo_feature "A1" "2" 0.01; demo_feature "A2" "1" 0.2 ]%float.

Definition numeric_populated : DashboardState :=
  setInterpretation [] (setAnalysisResults numeric_features [] both_filled).

Definition demo_run : DashboardState → list Action → DashboardState :=
  run extent scaleLinear 100 100.

Definition demo_actions : list Action :=
  [ SetEmbeddingData demo_embedding [0; 1; 2; 0; 1] [] [] [];
    BrushEnd (Some left_half); BrushEnd (Some lower_right);
    SetAnalysisResults demo_features []; SetInterpretation [];
    SaveCurrentAnalysis 1700000000000 "k3x9q0zr1" 1700000000000;
    BrushEnd (Some whole_plot); SelectCluster2 [2; 3]%nat;
    ToggleHistorySelection "1700000000000-k3x9q0zr1";
    ResetClusters; SelectCluster1 [4]%nat; SelectCluster2 [0; 1]%nat ].

(** Eleven saves in a populated state. *)
Definition ten_saved : DashboardState :=
  foldl (λ st n, saveCurrentAnalysis n "r" n st) demo_populated
        [1; 2; 3; 4; 5; 6; 7; 8; 9; 10].

(** ** Callers of the store *)

(** *** Responses of the remote services ([types/index.ts]) *)

Module ComputeEmbeddingResponse.
Record t := mk
  { embedding : list (list float); scaled_data : matrix;
    Ms : matrix; Mv : matrix; labels : list Z }.
End ComputeEmbeddingResponse.

Module ClusterAnalysisResponse.
Record t := mk
  { top_features : list FeatureImportance.t; contribution_matrix : matrix }.
End ClusterAnalysisResponse.

Module InterpretationResponse.
Record t := mk { sections : list InterpretationSection.t }.
End InterpretationResponse.

(** *** The two analysis triggers ([App.tsx])

    An invocation is a chain of awaited service calls with store writes in
    between.  It is given as the list of the writes it issues, in order;
    [st] is the state its closure captured.  A service call is a function
    of its request whose result is [None] when the promise rejects. *)

Section Orchestration.
Variable computeEmbedding :
  list ClassWeight.t → option ComputeEmbeddingResponse.t.
Variable analyzeClusters :
  list nat → list nat → matrix → matrix → matrix →
  option ClusterAnalysisResponse.t.
Variable interpretClusters :
  list FeatureImportance.t → nat → nat → option InterpretationResponse.t.

(** [handleExecute]: the writes of the [try] block, up to the first
    rejected call, then the write of the [finally] block. *)
Definition handleExecute (st : DashboardState) : list Action :=
  if bool_decide (length (classWeights st) = 0%nat) then []
  else
    SetIsLoading true
    :: match computeEmbedding (classWeights st) with
       | None => []
       | Some embeddingResult =>
           SetEmbeddingData
             (ComputeEmbeddingResponse.embedding embeddingResult)
             (ComputeEmbeddingResponse.labels embeddingResult)
             (ComputeEmbeddingResponse.scaled_data embeddingResult)
             (ComputeEmbeddingResponse.Ms embeddingResult)
             (ComputeEmbeddingResponse.Mv embeddingResult)
           :: match ClusterSelection.cluster1 (clusters st),
                    ClusterSelection.cluster2 (clusters st) with
              | Some c1, Some c2 =>
                  match analyzeClusters c1 c2
                          (ComputeEmbeddingResponse.scaled_data embeddingResult)
                          (ComputeEmbeddingResponse.Ms embeddingResult)
                          (ComputeEmbeddingResponse.Mv embeddingResult) with
                  | None => []
                  | Some analysisResult =>
                      SetAnalysisResults
                        (ClusterAnalysisResponse.top_features analysisResult)
                        (ClusterAnalysisResponse.contribution_matrix
                           analysisResult)
                      :: match interpretClusters
                                 (ClusterAnalysisResponse.top_features
                                    analysisResult)
                                 (length c1) (length c2) with
                         | None => []
                         | Some interpretationResult =>
                             [SetInterpretation
                                (InterpretationResponse.sections
                                   interpretationResult)]
                         end
                  end
              | _, _ => []
              end
       end
    ++ [SetIsLoading false].

(** [analyzeIfReady], the body of the effect that runs when the clusters or
    the retained embedding outputs change. *)
Definition analyzeIfReady (st : DashboardState) : list Action :=
  match ClusterSelection.cluster1 (clusters st),
        ClusterSelection.cluster2 (clusters st),
        scaledData st, Ms st, Mv st with
  | Some c1, Some c2, Some sd, Some ms, Some mv =>
      SetIsLoading true
      :: match analyzeClusters c1 c2 sd ms mv with
         | None => []
         | Some analysisResult =>
             SetAnalysisResults
               (ClusterAnalysisResponse.top_features analysisResult)
               (ClusterAnalysisResponse.contribution_matrix analysisResult)
             :: match interpretClusters
                        (ClusterAnalysisResponse.top_features analysisResult)
                        (length c1) (length c2) with
                | None => []
                | Some interpretationResult =>
                    [SetInterpretation
                       (InterpretationResponse.sections interpretationResult)]
                end
         end
      ++ [SetIsLoading false]
  | _, _, _, _, _ => []
  end.
End Orchestration.

(** *** Feature navigation ([components/TimeSeriesPlot.tsx]) *)

Definition handlePrev (st : DashboardState) : DashboardState :=
  if 0 <? currentFeatureIndex st
  then setCurrentFeatureIndex (currentFeatureIndex st - 1) st
  else st.

Definition handleNext (st : DashboardState) : DashboardState :=
  match topFeatures st with
  | Some features =>
      if currentFeatureIndex st <? Z.of_nat (length features) - 1
      then setCurrentFeatureIndex (currentFeatureIndex st + 1) st
      else st
  | None => st
  end.

(** [topFeatures?.[currentFeatureIndex]], the feature the plot shows. *)
Definition currentFeature (st : DashboardState) : option FeatureImportance.t :=
  features ← topFeatures st;
  if currentFeatureIndex st <? 0 then None
  else features !! Z.to_nat (currentFeatureIndex st).

(** *** The interpretation panel ([components/AIInterpretation.tsx]) *)

(** What the summary tab renders: the spinner, one of the two placeholder
    messages, or the section cards with or without the save button. *)
Inductive SummaryView :=
| Generating
| Placeholder (message : string)
| Sections (cards : list InterpretationSection.t) (canSave : bool).

Definition SummaryTab (st : DashboardState) : SummaryView :=
  let hasBothClusters :=
    bool_decide (is_Some (ClusterSelection.cluster1 (clusters st)))
    && bool_decide (is_Some (ClusterSelection.cluster2 (clusters st))) in
  if isLoading st then Generating
  else
    match interpretation st with
    | None | Some [] =>
        Placeholder (if hasBothClusters then "Analysis in progress..."
                     else "Select two clusters to generate interpretation")
    | Some cards =>
        let canSave :=
          match topFeatures st with
          | Some features => bool_decide (0 < length features)%nat
          | None => false
          end in
        Sections cards canSave
    end.

(** [new Set(array)] as the array of its elements, which a [Set] keeps in
    insertion order, each value once. *)
Definition set_add (s : list string) (v : string) : list string :=
  if bool_decide (v ∈ s) then s else s ++ [v].

Definition new_Set (array : list string) : list string :=
  foldl set_add [] array.

Definition featureKey (f : FeatureImportance.t) : string :=
  FeatureImportance.rack f +:+ "-" +:+ FeatureImportance.variable f.

(** The compare tab: the analyses under comparison and the three buckets
    of their top-10 feature keys; [None] when the tab asks to select 2
    analyses. *)
Definition selectedAnalyses (st : DashboardState) : list SavedAnalysis.t :=
  filter (λ a, SavedAnalysis.id a ∈ selectedHistoryIds st) (analysisHistory st).

Definition comparedKeys (a : SavedAnalysis.t) : list string :=
  new_Set (featureKey <$> slice_to 10 (SavedAnalysis.top_features a)).

Module Comparison.
Record t := mk
  { analysis1 : SavedAnalysis.t; analysis2 : SavedAnalysis.t;
    sameBaseCluster : bool;
    common : list string; onlyIn1 : list string; onlyIn2 : list string }.
End Comparison.

Definition compare (analysis1 analysis2 : SavedAnalysis.t) : Comparison.t :=
  let features1 := comparedKeys analysis1 in
  let features2 := comparedKeys analysis2 in
  {| Comparison.analysis1 := analysis1;
     Comparison.analysis2 := analysis2;
     Comparison.sameBaseCluster :=
       bool_decide (SavedAnalysis.cluster1_size analysis1
                    = SavedAnalysis.cluster1_size analysis2);
     Comparison.common := filter (λ f, f ∈ features2) features1;
     Comparison.onlyIn1 := filter (λ f, f ∉ features2) features1;
     Comparison.onlyIn2 := filter (λ f, f ∉ features1) features2 |}.

Definition CompareTab (st : DashboardState) : option Comparison.t :=
  match selectedAnalyses st with
  | [analysis1; analysis2] => Some (compare analysis1 analysis2)
  | _ => None
  end.

(** *** Vocabulary for the callers *)

(** Two states that differ at most in [clusters]. *)
Definition same_except_clusters (st st' : DashboardState) : Prop :=
  config st' = config st
  ∧ classWeights st' = classWeights st
  ∧ selectedClass st' = selectedClass st
  ∧ embeddingData st' = embeddingData st
  ∧ scaledData st' = scaledData st
  ∧ Ms st' = Ms st
  ∧ Mv st' = Mv st
  ∧ topFeatures st' = topFeatures st
  ∧ contributionMatrix st' = contributionMatrix st
  ∧ interpretation st' = interpretation st
  ∧ analysisHistory st' = analysisHistory st
  ∧ selectedHistoryIds st' = selectedHistoryIds st
  ∧ currentFeatureIndex st' = currentFeatureIndex st
  ∧ activeTab st' = activeTab st
  ∧ selectedVariable st' = selectedVariable st
  ∧ interpretationTab st' = interpretationTab st
  ∧ isLoading st' = isLoading st.

(** Every point carries its position in the collection as its index. *)
Definition indices_are_positions (st : DashboardState) : Prop :=
  EmbeddingPoint.index <$> embeddingData st = seq 0 (length (embeddingData st)).

(** The character occurs in the string. *)
Fixpoint occurs (c : ascii) (s : string) : bool :=
  match s with
  | EmptyString => false
  | String c' s' => Ascii.eqb c' c || occurs c s'
  end.

(** The first 10 feature keys of a saved analysis. *)
Definition topKeys (a : SavedAnalysis.t) : list string :=
  featureKey <$> take 10 (SavedAnalysis.top_features a).

(** *** Plain text of a section ([components/AIInterpretation.tsx])

    [text.replace(/\[([^\]]+)\]/g, '$1')].  At a ["["] the pattern matches
    when the longest run of characters other than ["]"] that follows is not
    empty and is followed by a ["]"]; the match is replaced by the run and
    the search goes on after it.  Any other character is kept.  Both
    brackets are ASCII, so the bytes of a string stand for its characters.
    [fuel] bounds the number of search steps; the length of the text is
    enough. *)

Fixpoint span_no_close (s : string) : string * string :=
  match s with
  | EmptyString => (EmptyString, EmptyString)
  | String c t =>
      if Ascii.eqb c "]" then (EmptyString, s)
      else let '(run, rest) := span_no_close t in (String c run, rest)
  end.

Fixpoint replace_brackets (fuel : nat) (s : string) : string :=
  match fuel with
  | O => s
  | S fuel =>
      match s with
      | EmptyString => EmptyString
      | String c t =>
          if Ascii.eqb c "["
          then match span_no_close t with
               | (String d run, String _ rest) =>
                   String d run +:+ replace_brackets fuel rest
               | _ => String c (replace_brackets fuel t)
               end
          else String c (replace_brackets fuel t)
      end
  end.

Definition renderPlainText (text : string) : string :=
  replace_brackets (String.length text) text.

(** A text written as plain stretches and bracketed highlights. *)
Inductive Piece :=
| Plain (s : string)
| Highlight (s : string).

Fixpoint markup (pieces : list Piece) : string :=
  match pieces with
  | [] => EmptyString
  | Plain s :: rest => s +:+ markup rest
  | Highlight h :: rest => "[" +:+ h +:+ "]" +:+ markup rest
  end.

Fixpoint withoutBrackets (pieces : list Piece) : string :=
  match pieces with
  | [] => EmptyString
  | Plain s :: rest => s +:+ withoutBrackets rest
  | Highlight h :: rest => h +:+ withoutBrackets rest
  end.

(** No plain stretch holds a ["["]; every highlight is non-empty and holds
    no ["]"]. *)
Definition well_bracketed (pieces : list Piece) : Prop :=
  Forall (λ p, match p with
               | Plain s => occurs "[" s = false
               | Highlight h => h ≠ EmptyString ∧ occurs "]" h = false
               end) pieces.

(** ** Concrete inputs for the callers *)

Definition demo_card : InterpretationSection.t :=
  {| InterpretationSection.title := "Key Findings";
     InterpretationSection.text := "Rack [A1] runs hotter in [CPU]";
     InterpretationSection.highlights := ["A1"; "CPU"] |}.

(** Both clusters selected, an analysis and its interpretation shown,
    three class weights. *)
Definition demo_shown : DashboardState :=
  initializeWeights 3 (setInterpretation [demo_card] demo_populated).

Definition demo_response : ComputeEmbeddingResponse.t :=
  {| ComputeEmbeddingResponse.embedding := demo_embedding;
     ComputeEmbeddingResponse.scaled_data := [[1; 2]; [3; 4]]%float;
     ComputeEmbeddingResponse.Ms := [[1]]%float;
     ComputeEmbeddingResponse.Mv := [[2]]%float;
     ComputeEmbeddingResponse.labels := [0; 1; 2; 0; 1] |}.

(** Services that answer, and services that fail. *)
Definition embedding_ok (_ : list ClassWeight.t)
    : option ComputeEmbeddingResponse.t := Some demo_response.
Definition embedding_fails (_ : list ClassWeight.t)
    : option ComputeEmbeddingResponse.t := None.
Definition analysis_ok (_ _ : list nat) (_ _ _ : matrix)
    : option ClusterAnalysisResponse.t :=
  Some {| ClusterAnalysisResponse.top_features := numeric_features;
          ClusterAnalysisResponse.contribution_matrix := [[5]]%float |}.
Definition analysis_fails (_ _ : list nat) (_ _ _ : matrix)
    : option ClusterAnalysisResponse.t := None.
Definition interpretation_fails (_ : list FeatureImportance.t) (_ _ : nat)
    : option InterpretationResponse.t := None.

(** The ten saved analyses with the oldest and the newest selected, and
    the same after one more save. *)
Definition oldest_and_newest : DashboardState :=
  toggleHistorySelection "10-r" (toggleHistorySelection "1-r" ten_saved).
Definition oldest_evicted : DashboardState :=
  saveCurrentAnalysis 11 "r" 11 oldest_and_newest.

Definition demo_pieces : list Piece :=
  [Plain "Rack "; Highlight "A1"; Plain " runs hotter in "; Highlight "CPU"].

(** * Properties *)

(** Projections of a state built by setters compute once the state is a
    constructor. *)
Ltac store_cases st := destruct st; cbn -[slice_to slice_last] in *.

(** ** Reset and new embedding *)

(** C8: [resetClusters] unsets cluster1, cluster2, topFeatures,
    contributionMatrix and interpretation and leaves the embedding points
    and the history as they were; [setEmbeddingData] empties the history and
    the comparison selection and leaves the cluster selection, the analysis
    result and the interpretation as they were. *)
Theorem reset_and_embedding_frames :
  (∀ st : DashboardState,
     cluster1Of (resetClusters st) = None
     ∧ cluster2Of (resetClusters st) = None
     ∧ topFeatures (resetClusters st) = None
     ∧ contributionMatrix (resetClusters st) = None
     ∧ interpretation (resetClusters st) = None
     ∧ embeddingData (resetClusters st) = embeddingData st
     ∧ analysisHistory (resetClusters st) = analysisHistory st)
  ∧ (∀ embedding labels sd ms mv (st : DashboardState),
       let st' := setEmbeddingData embedding labels sd ms mv st in
       analysisHistory st' = []
       ∧ selectedHistoryIds st' = []
       ∧ clusters st' = clusters st
       ∧ topFeatures st' = topFeatures st
       ∧ contributionMatrix st' = contributionMatrix st
       ∧ interpretation st' = interpretation st).
Proof.
  split.
  - intros st. store_cases st. repeat split.
  - intros embedding labels sd ms mv st st'. subst st'.
    store_cases st. repeat split.
Qed.

(** ** Saving an analysis *)

Lemma save_populated (now : Z) (rnd : string) (date : Z) (st : DashboardState) :
  populated st →
  saveCurrentAnalysis now rnd date st
  = set_analysisHistory
      (slice_to MAX_HISTORY_SIZE
         (snapshotOf now rnd date st :: analysisHistory st)) st.
Proof.
  intros (H1 & H2 & H3 & H4).
  unfold saveCurrentAnalysis, snapshotOf, cluster1Of, cluster2Of in *.
  destruct H1 as [c1 ->], H2 as [c2 ->], H3 as [f ->], H4 as [s ->].
  reflexivity.
Qed.

Lemma analysisHistory_set (h : list SavedAnalysis.t) (st : DashboardState) :
  analysisHistory (set_analysisHistory h st) = h.
Proof. by destruct st. Qed.

Lemma save_history (now : Z) (rnd : string) (date : Z) (st : DashboardState) :
  populated st →
  analysisHistory (saveCurrentAnalysis now rnd date st)
  = snapshotOf now rnd date st :: take 9 (analysisHistory st).
Proof.
  intros Hpop. rewrite (save_populated _ _ _ _ Hpop).
  by rewrite analysisHistory_set.
Qed.

Lemma set_analysisHistory_frame (h : list SavedAnalysis.t) (st : DashboardState) :
  same_except_history st (set_analysisHistory h st)
  ∧ analysisHistory (set_analysisHistory h st) = h.
Proof. destruct st. cbn. unfold same_except_history. cbn. repeat split. Qed.


(** ** The comparison selection *)

Lemma slice_last_snoc2 {A} (l : list A) (a b : A) :
  slice_last 2 (l ++ [a; b]) = [a; b].
Proof.
  unfold slice_last. rewrite length_app. cbn.
  replace (length l + 2 - 2)%nat with (length l) by lia.
  by rewrite drop_app_length.
Qed.

Lemma slice_last_snoc1 {A} (l : list A) (a : A) :
  slice_last 2 (l ++ [a]) = slice_last 1 l ++ [a].
Proof.
  unfold slice_last. rewrite length_app. cbn.
  replace (length l + 1 - 2)%nat with (length l - 1)%nat by lia.
  rewrite drop_app_le by lia. reflexivity.
Qed.

Lemma slice_last_length {A} (n : nat) (l : list A) :
  (length (slice_last n l) ≤ n)%nat.
Proof. unfold slice_last. rewrite length_drop. lia. Qed.

Lemma not_elem_of_pair (c a b : string) : c ≠ a → c ≠ b → c ∉ [a; b].
Proof.
  intros Ha Hb [-> | Hin]%elem_of_cons; [done|].
  apply list_elem_of_singleton in Hin. done.
Qed.

Lemma selectedHistoryIds_set (ids : list string) (st : DashboardState) :
  selectedHistoryIds (set_selectedHistoryIds ids st) = ids.
Proof. by destruct st. Qed.

Lemma toggle_unselected (id : string) (st : DashboardState) :
  id ∉ selectedHistoryIds st →
  selectedHistoryIds (toggleHistorySelection id st)
  = slice_last 2 (selectedHistoryIds st ++ [id]).
Proof.
  intros Hid. unfold toggleHistorySelection.
  rewrite bool_decide_eq_false_2 by done.
  apply selectedHistoryIds_set.
Qed.

Lemma toggle_length (id : string) (st : DashboardState) :
  (length (selectedHistoryIds st) ≤ 2)%nat →
  (length (selectedHistoryIds (toggleHistorySelection id st)) ≤ 2)%nat.
Proof.
  intros Hlen. unfold toggleHistorySelection. case_bool_decide.
  - rewrite selectedHistoryIds_set.
    etrans; [apply length_filter|done].
  - rewrite selectedHistoryIds_set. apply slice_last_length.
Qed.

(** C5: toggling keeps a selection of at most 2 ids at most 2 ids long;
    toggling an unselected id when [a; b] is selected gives [b; id], the
    older [a] leaving; and toggling three distinct unselected ids A, B, C
    in turn leaves exactly [B; C]. *)
Theorem toggle_sliding_window :
  (∀ (id : string) (st : DashboardState),
     (length (selectedHistoryIds st) ≤ 2)%nat →
     (length (selectedHistoryIds (toggleHistorySelection id st)) ≤ 2)%nat)
  ∧ (∀ (a b id : string) (st : DashboardState),
       selectedHistoryIds st = [a; b] → id ≠ a → id ≠ b →
       selectedHistoryIds (toggleHistorySelection id st) = [b; id])
  ∧ (∀ (A B C : string) (st : DashboardState),
       A ≠ B → C ≠ A → C ≠ B →
       A ∉ selectedHistoryIds st → B ∉ selectedHistoryIds st →
       C ∉ selectedHistoryIds st →
       selectedHistoryIds
         (toggleHistorySelection C
            (toggleHistorySelection B (toggleHistorySelection A st)))
       = [B; C]).
Proof.
  split; [exact toggle_length|]. split.
  - intros a b id st Hsel Ha Hb.
    rewrite toggle_unselected; rewrite Hsel.
    + reflexivity.
    + by apply not_elem_of_pair.
  - intros A B C st HAB HAC HBC HA HB HC.
    pose proof (toggle_unselected A st HA) as H1.
    rewrite slice_last_snoc1 in H1.
    assert (Hsub : ∀ s : string,
               s ∈ slice_last 1 (selectedHistoryIds st) →
               s ∈ selectedHistoryIds st).
    { intros s Hs. unfold slice_last in Hs.
      by apply (subseteq_drop _ (selectedHistoryIds st)) in Hs. }
    assert (HB1 : B ∉ selectedHistoryIds (toggleHistorySelection A st)).
    { rewrite H1. intros [Hin | Hin]%elem_of_app; [by apply HB, Hsub|].
      apply list_elem_of_singleton in Hin. congruence. }
    pose proof (toggle_unselected B _ HB1) as H2.
    rewrite H1, <- app_assoc in H2. cbn in H2.
    rewrite slice_last_snoc2 in H2.
    rewrite toggle_unselected; rewrite H2.
    + reflexivity.
    + by apply not_elem_of_pair.
Qed.

(** ** Brush selection and the cluster state machine *)

Lemma clusters_set (c : ClusterSelection.t) (st : DashboardState) :
  clusters (set_clusters c st) = c.
Proof. by destruct st. Qed.

Lemma elem_of_clusterSet (c : option (list nat)) (i : nat) :
  has (clusterSet c) i = true ↔ i ∈ default [] c.
Proof.
  unfold has, clusterSet. rewrite bool_decide_eq_true.
  apply elem_of_list_to_set.
Qed.

Section BrushProperties.
Variable d3_extent : list float → float * float.
Variable d3_scaleLinear : float * float → float * float → float → float.
Variables innerWidth innerHeight : float.

(* Unfolding steps, named here because the abbreviations below reuse the
   names of the definitions. *)
Ltac open_brushFilter := unfold brushFilter.
Ltac open_brushedPoints := unfold brushedPoints.
Ltac open_selectedIndices := unfold selectedIndices.
Ltac open_handleBrushEnd := unfold handleBrushEnd.
Ltac step_dispatch := cbn [dispatch].

Abbreviation xScale := (xScale d3_extent d3_scaleLinear innerWidth).
Abbreviation yScale := (yScale d3_extent d3_scaleLinear innerHeight).
Abbreviation brushFilter :=
  (brushFilter d3_extent d3_scaleLinear innerWidth innerHeight).
Abbreviation brushedPoints :=
  (brushedPoints d3_extent d3_scaleLinear innerWidth innerHeight).
Abbreviation selectedIndices :=
  (selectedIndices d3_extent d3_scaleLinear innerWidth innerHeight).
Abbreviation handleBrushEnd :=
  (handleBrushEnd d3_extent d3_scaleLinear innerWidth innerHeight).
Abbreviation dispatch := (dispatch d3_extent d3_scaleLinear innerWidth innerHeight).
Abbreviation run := (run d3_extent d3_scaleLinear innerWidth innerHeight).

Lemma brushFilter_spec (sel : BrushSelection) (st : DashboardState)
    (d : EmbeddingPoint.t) :
  brushFilter sel st d = true ↔
  ¬ assigned st (EmbeddingPoint.index d)
  ∧ inside sel (xScale (embeddingData st) (EmbeddingPoint.x d))
               (yScale (embeddingData st) (EmbeddingPoint.y d)).
Proof.
  destruct sel as [[x0 y0] [x1 y1]].
  open_brushFilter. unfold assigned, inside, geb. cbn [fst snd].
  fold (cluster1Of st) (cluster2Of st).
  pose proof (elem_of_clusterSet (cluster1Of st) (EmbeddingPoint.index d)) as H1.
  pose proof (elem_of_clusterSet (cluster2Of st) (EmbeddingPoint.index d)) as H2.
  destruct (has (clusterSet (cluster1Of st)) _);
    destruct (has (clusterSet (cluster2Of st)) _); cbn [orb].
  1-3: split; [done|]; intros [Hn _]; exfalso; apply Hn; tauto.
  rewrite !andb_true_iff.
  split.
  - intros [[[Ha Hb] Hc] Hd]. split; [|done].
    intros [Hin | Hin]; [apply H1 in Hin | apply H2 in Hin]; done.
  - intros [_ (Ha & Hb & Hc & Hd)]. done.
Qed.

Lemma elem_of_brushedPoints (sel : BrushSelection) (st : DashboardState)
    (d : EmbeddingPoint.t) :
  d ∈ brushedPoints sel st ↔
  d ∈ embeddingData st
  ∧ ¬ assigned st (EmbeddingPoint.index d)
  ∧ inside sel (xScale (embeddingData st) (EmbeddingPoint.x d))
               (yScale (embeddingData st) (EmbeddingPoint.y d)).
Proof.
  open_brushedPoints. rewrite list_elem_of_filter, brushFilter_spec.
  tauto.
Qed.

Lemma elem_of_selectedIndices (sel : BrushSelection) (st : DashboardState)
    (i : nat) :
  i ∈ selectedIndices sel st ↔
  ∃ d, d ∈ embeddingData st ∧ EmbeddingPoint.index d = i
       ∧ ¬ assigned st i
       ∧ inside sel (xScale (embeddingData st) (EmbeddingPoint.x d))
                    (yScale (embeddingData st) (EmbeddingPoint.y d)).
Proof.
  open_selectedIndices. rewrite list_elem_of_fmap. split.
  - intros (d & -> & Hd). apply elem_of_brushedPoints in Hd.
    destruct Hd as (Hd & Hn & Hin). by exists d.
  - intros (d & Hd & <- & Hn & Hin). exists d. split; [done|].
    apply elem_of_brushedPoints. done.
Qed.

Lemma selectedIndices_not_assigned (sel : BrushSelection)
    (st : DashboardState) (i : nat) :
  assigned st i → i ∉ selectedIndices sel st.
Proof.
  intros Ha Hin. apply elem_of_selectedIndices in Hin.
  destruct Hin as (d & _ & _ & Hn & _). by apply Hn.
Qed.

Lemma handleBrushEnd_empty (sel : BrushSelection) (st : DashboardState) :
  selectedIndices sel st = [] → handleBrushEnd (Some sel) st = st.
Proof.
  intros He. open_handleBrushEnd. rewrite He.
  case_bool_decide; [done|]. cbn. reflexivity.
Qed.

Lemma handleBrushEnd_assign (sel : BrushSelection) (st : DashboardState) :
  selectedIndices sel st ≠ [] →
  handleBrushEnd (Some sel) st
  = match cluster1Of st, cluster2Of st with
    | None, _ => selectCluster1 (selectedIndices sel st) st
    | Some _, None => selectCluster2 (selectedIndices sel st) st
    | Some _, Some _ => selectCluster1 (selectedIndices sel st) st
    end.
Proof.
  intros Hne. open_handleBrushEnd.
  rewrite bool_decide_eq_false_2.
  - rewrite bool_decide_eq_false_2; [reflexivity|].
    intros Hl. by apply length_zero_iff_nil in Hl.
  - intros Hl. apply length_zero_iff_nil in Hl. apply Hne.
    open_selectedIndices. open_brushedPoints.
    by rewrite Hl.
Qed.

(** C2: a completed brush gesture with a non-empty candidate list [S]
    assigns [S] to cluster1 when both slots are unset, to cluster2 (cluster1
    kept) when only cluster1 is set, and, when both are set, overwrites
    cluster1 with [S] and unsets cluster2. *)
Theorem brush_assignment_policy (sel : BrushSelection) (st : DashboardState) :
  selectedIndices sel st ≠ [] →
  (cluster1Of st = None → cluster2Of st = None →
   clusters (handleBrushEnd (Some sel) st)
   = ClusterSelection.mk (Some (selectedIndices sel st)) None)
  ∧ (∀ A : list nat,
       cluster1Of st = Some A → cluster2Of st = None →
       clusters (handleBrushEnd (Some sel) st)
       = ClusterSelection.mk (Some A) (Some (selectedIndices sel st)))
  ∧ (∀ A B : list nat,
       cluster1Of st = Some A → cluster2Of st = Some B →
       clusters (handleBrushEnd (Some sel) st)
       = ClusterSelection.mk (Some (selectedIndices sel st)) None).
Proof.
  intros Hne. rewrite (handleBrushEnd_assign _ _ Hne).
  split; [|split].
  - intros H1 _. rewrite H1. apply clusters_set.
  - intros A H1 H2. rewrite H1, H2. unfold selectCluster2.
    rewrite clusters_set. fold (cluster1Of st). by rewrite H1.
  - intros A B H1 H2. rewrite H1, H2. apply clusters_set.
Qed.

Lemma index_unique (data : list EmbeddingPoint.t) (d d' : EmbeddingPoint.t) :
  NoDup (EmbeddingPoint.index <$> data) → d ∈ data → d' ∈ data →
  EmbeddingPoint.index d = EmbeddingPoint.index d' → d = d'.
Proof.
  induction data as [|e data IH]; intros Hnd Hd Hd' Heq.
  - by apply elem_of_nil in Hd.
  - rewrite fmap_cons in Hnd. apply NoDup_cons in Hnd as [Hne Hnd].
    apply elem_of_cons in Hd as [-> | Hd];
      apply elem_of_cons in Hd' as [-> | Hd']; try done.
    + exfalso. apply Hne. rewrite Heq. by apply list_elem_of_fmap_2.
    + exfalso. apply Hne. rewrite <- Heq. by apply list_elem_of_fmap_2.
    + by apply IH.
Qed.

(** C3: for every brush rectangle and every state, with [S] the candidate
    list: an index already in cluster1 or cluster2 is not in [S]; an index
    is in [S] exactly when some unassigned point carrying it maps inside
    the rectangle, bounds included, so that, indices being distinct, an
    unassigned point is a candidate exactly when it maps inside; [S] lists
    the indices in the order of the point collection; and when [S] is
    empty the gesture returns the state it was given. *)
Theorem brush_candidates (sel : BrushSelection) (st : DashboardState) :
  (∀ i : nat, assigned st i → i ∉ selectedIndices sel st)
  ∧ (∀ i : nat,
       i ∈ selectedIndices sel st ↔
       ∃ d, d ∈ embeddingData st ∧ EmbeddingPoint.index d = i
            ∧ ¬ assigned st i
            ∧ inside sel (xScale (embeddingData st) (EmbeddingPoint.x d))
                         (yScale (embeddingData st) (EmbeddingPoint.y d)))
  ∧ (NoDup (EmbeddingPoint.index <$> embeddingData st) →
     ∀ d : EmbeddingPoint.t,
       d ∈ embeddingData st → ¬ assigned st (EmbeddingPoint.index d) →
       (EmbeddingPoint.index d ∈ selectedIndices sel st ↔
        inside sel (xScale (embeddingData st) (EmbeddingPoint.x d))
                   (yScale (embeddingData st) (EmbeddingPoint.y d))))
  ∧ selectedIndices sel st `sublist_of` (EmbeddingPoint.index <$> embeddingData st)
  ∧ (selectedIndices sel st = [] → handleBrushEnd (Some sel) st = st).
Proof.
  split; [intros i; apply selectedIndices_not_assigned|].
  split; [apply elem_of_selectedIndices|].
  split; [|split; [|apply handleBrushEnd_empty]].
  - intros Hnd d Hd Hn. rewrite elem_of_selectedIndices. split.
    + intros (d' & Hd' & Heq & _ & Hin).
      by rewrite (index_unique _ d d' Hnd Hd Hd' (eq_sym Heq)).
    + intros Hin. by exists d.
  - open_selectedIndices. open_brushedPoints.
    apply fmap_sublist, sublist_filter.
Qed.

(** *** What each action does to the clusters and to the history *)

Lemma handleBrushEnd_clusters_only (selection : option BrushSelection)
    (st : DashboardState) :
  ∃ c, handleBrushEnd selection st = set_clusters c st.
Proof.
  destruct selection as [sel|].
  - destruct (decide (selectedIndices sel st = [])) as [He | Hne].
    + exists (clusters st). rewrite handleBrushEnd_empty by done. by destruct st.
    + rewrite handleBrushEnd_assign by done.
      unfold selectCluster1, selectCluster2. repeat case_match; eauto.
  - exists (clusters st). by destruct st.
Qed.

Lemma dispatch_clusters (st : DashboardState) (a : Action) :
  clusters (dispatch st a)
  = match a with
    | SelectCluster1 indices => ClusterSelection.mk (Some indices) None
    | SelectCluster2 indices => ClusterSelection.mk (cluster1Of st) (Some indices)
    | ResetClusters => ClusterSelection.mk None None
    | BrushEnd selection => clusters (handleBrushEnd selection st)
    | _ => clusters st
    end.
Proof.
  destruct a; step_dispatch; try (by destruct st).
  - unfold saveCurrentAnalysis. repeat case_match; by destruct st.
  - unfold toggleHistorySelection. case_bool_decide; by destruct st.
Qed.

Lemma dispatch_history (st : DashboardState) (a : Action) :
  analysisHistory (dispatch st a)
  = match a with
    | SetEmbeddingData _ _ _ _ _ => []
    | ClearHistory => []
    | SaveCurrentAnalysis now rnd date =>
        analysisHistory (saveCurrentAnalysis now rnd date st)
    | _ => analysisHistory st
    end.
Proof.
  destruct a; step_dispatch; try (by destruct st).
  - unfold toggleHistorySelection. case_bool_decide; by destruct st.
  - destruct (handleBrushEnd_clusters_only selection st) as [c ->].
    by destruct st.
Qed.

Lemma run_invariant (P : DashboardState → Prop) :
  (∀ st a, P st → P (dispatch st a)) →
  ∀ actions st, P st → P (run st actions).
Proof.
  intros Hstep actions. induction actions as [|a actions IH]; intros st HP.
  - exact HP.
  - cbn. apply IH, Hstep, HP.
Qed.

(** *** History bound *)

Lemma save_history_length (now : Z) (rnd : string) (date : Z)
    (st : DashboardState) :
  (length (analysisHistory st) ≤ MAX_HISTORY_SIZE)%nat →
  (length (analysisHistory (saveCurrentAnalysis now rnd date st))
   ≤ MAX_HISTORY_SIZE)%nat.
Proof.
  intros Hlen. unfold saveCurrentAnalysis. repeat case_match; try done.
  destruct (set_analysisHistory_frame
              (slice_to MAX_HISTORY_SIZE
                 (newAnalysis now rnd date l l0 l1 l2 :: analysisHistory st)) st)
    as [_ ->].
  unfold slice_to. rewrite length_take. lia.
Qed.

(** C4: in a populated state [saveCurrentAnalysis] puts the new snapshot at
    the head of the history, before the entries already held in their
    order; the history of every reachable state has at most 10 entries;
    and saving while 10 entries are held leaves exactly 10, the new snapshot
    followed by the 9 most recent old ones, the oldest (last) one gone. *)
Theorem history_bounded_most_recent_first :
  (∀ now rnd date (st : DashboardState),
     populated st →
     analysisHistory (saveCurrentAnalysis now rnd date st)
     = snapshotOf now rnd date st :: take 9 (analysisHistory st))
  ∧ (∀ actions : list Action,
       (length (analysisHistory (run initialState actions)) ≤ 10)%nat)
  ∧ (∀ now rnd date (st : DashboardState),
       populated st → length (analysisHistory st) = 10%nat →
       ∃ kept oldest,
         analysisHistory st = kept ++ [oldest]
         ∧ analysisHistory (saveCurrentAnalysis now rnd date st)
           = snapshotOf now rnd date st :: kept
         ∧ length (analysisHistory (saveCurrentAnalysis now rnd date st))
           = 10%nat).
Proof.
  split; [exact save_history|]. split.
  - intros actions.
    apply (run_invariant
             (λ st, (length (analysisHistory st) ≤ MAX_HISTORY_SIZE)%nat)).
    + intros st a Hlen. rewrite dispatch_history.
      destruct a; try done; cbn; try lia.
      by apply save_history_length.
    + cbn. lia.
  - intros now rnd date st Hpop Hlen.
    destruct (analysisHistory st) as [|h hs] eqn:Hh using rev_ind;
      [discriminate Hlen|].
    rewrite length_app in Hlen. cbn in Hlen.
    exists hs, h. split; [reflexivity|].
    rewrite (save_history _ _ _ _ Hpop), Hh.
    rewrite take_app_length' by lia.
    split; [reflexivity|]. cbn. lia.
Qed.

(** *** Cluster invariants *)

Lemma clusters_disjoint_brush (selection : option BrushSelection)
    (st : DashboardState) :
  clusters_disjoint st → clusters_disjoint (handleBrushEnd selection st).
Proof.
  intros Hdis. destruct selection as [sel|]; [|exact Hdis].
  destruct (decide (selectedIndices sel st = [])) as [He | Hne].
  { by rewrite handleBrushEnd_empty. }
  rewrite handleBrushEnd_assign by done.
  destruct (cluster1Of st) as [c1|] eqn:H1;
    [destruct (cluster2Of st) as [c2|] eqn:H2|];
    unfold clusters_disjoint, cluster1Of, cluster2Of,
      selectCluster1, selectCluster2;
    rewrite clusters_set; cbn.
  - intros i _ Hin. by apply elem_of_nil in Hin.
  - fold (cluster1Of st). rewrite H1. cbn. intros i Hi1 Hi2.
    apply (selectedIndices_not_assigned sel st i); [|done].
    left. by rewrite H1.
  - intros i _ Hin. by apply elem_of_nil in Hin.
Qed.

Lemma clusters_disjoint_step (st : DashboardState) (a : Action) :
  clusters_disjoint st →
  match a with
  | SelectCluster2 indices =>
      Forall (λ i : nat, i ∉ default [] (cluster1Of st)) indices
  | _ => True
  end →
  clusters_disjoint (dispatch st a).
Proof.
  intros Hdis Hguard.
  assert (Hsame : clusters (dispatch st a) = clusters st →
                  clusters_disjoint (dispatch st a)).
  { intros Heq. unfold clusters_disjoint, cluster1Of, cluster2Of.
    rewrite Heq. exact Hdis. }
  pose proof (dispatch_clusters st a) as Hc.
  destruct a; try (by apply Hsame);
    unfold clusters_disjoint, cluster1Of, cluster2Of; try rewrite Hc; cbn.
  - intros i _ Hin. by apply elem_of_nil in Hin.
  - intros i Hi1 Hi2. rewrite Forall_forall in Hguard. by apply (Hguard i).
  - intros i _ Hin. by apply elem_of_nil in Hin.
  - by apply clusters_disjoint_brush.
Qed.

Lemma clusters_disjoint_run (actions : list Action) (st : DashboardState) :
  clusters_disjoint st →
  select2_disjoint d3_extent d3_scaleLinear innerWidth innerHeight st actions →
  clusters_disjoint (run st actions).
Proof.
  revert st. induction actions as [|a actions IH]; intros st Hdis Hguard.
  - exact Hdis.
  - destruct Hguard as [Ha Hrest]. cbn. apply IH; [|exact Hrest].
    by apply clusters_disjoint_step.
Qed.

(** C1 (as amended): in every state reached from the initial store by a
    sequence of actions — brush gestures, [selectCluster1], [resetClusters],
    [setEmbeddingData] and every other operation of the store — in which
    [selectCluster2] is only given indices outside the current cluster1, the
    two clusters share no index.  [handleBrushEnd], the caller of
    [selectCluster2], meets that condition by itself. *)
Theorem clusters_stay_disjoint (actions : list Action) :
  select2_disjoint d3_extent d3_scaleLinear innerWidth innerHeight
    initialState actions →
  clusters_disjoint (run initialState actions).
Proof.
  apply clusters_disjoint_run. intros i Hin. by apply elem_of_nil in Hin.
Qed.

Lemma cluster2_needs_cluster1_step (st : DashboardState) (a : Action) :
  cluster2_needs_cluster1 st →
  match a with
  | SelectCluster2 _ => is_Some (cluster1Of st)
  | _ => True
  end →
  cluster2_needs_cluster1 (dispatch st a).
Proof.
  intros Hinv Hguard.
  assert (Hsame : clusters (dispatch st a) = clusters st →
                  cluster2_needs_cluster1 (dispatch st a)).
  { intros Heq. unfold cluster2_needs_cluster1, cluster1Of, cluster2Of.
    rewrite Heq. exact Hinv. }
  pose proof (dispatch_clusters st a) as Hc.
  destruct a; try (by apply Hsame);
    unfold cluster2_needs_cluster1; unfold cluster1Of at 1, cluster2Of at 1;
    try rewrite Hc; cbn.
  - intros _. by eexists.
  - intros _. exact Hguard.
  - intros H. exact H.
  - destruct selection as [sel|]; [|exact Hinv].
    destruct (decide (selectedIndices sel st = [])) as [He | Hne].
    { by rewrite handleBrushEnd_empty. }
    rewrite handleBrushEnd_assign by done.
    destruct (cluster1Of st) as [c1|] eqn:H1;
      [destruct (cluster2Of st) as [c2|] eqn:H2|];
      unfold selectCluster1, selectCluster2; rewrite clusters_set; cbn.
    + intros _. by eexists.
    + intros _. fold (cluster1Of st). by rewrite H1.
    + intros _. by eexists.
Qed.

Lemma cluster2_needs_cluster1_run (actions : list Action) (st : DashboardState) :
  cluster2_needs_cluster1 st →
  select2_after_select1 d3_extent d3_scaleLinear innerWidth innerHeight
    st actions →
  cluster2_needs_cluster1 (run st actions).
Proof.
  revert st. induction actions as [|a actions IH]; intros st Hinv Hguard.
  - exact Hinv.
  - destruct Hguard as [Ha Hrest]. cbn. apply IH; [|exact Hrest].
    by apply cluster2_needs_cluster1_step.
Qed.

(** C10 (as amended): every call to [selectCluster1], the first one from
    the empty state included, leaves cluster2 unset; and in every state
    reached from the initial store by actions in which [selectCluster2] is
    only called while cluster1 is set — the one way [handleBrushEnd] calls
    it — cluster2 being set implies that cluster1 is set. *)
Theorem cluster2_set_implies_cluster1_set :
  (∀ (indices : list nat) (st : DashboardState),
     cluster2Of (selectCluster1 indices st) = None
     ∧ cluster1Of (selectCluster1 indices st) = Some indices)
  ∧ (∀ actions : list Action,
       select2_after_select1 d3_extent d3_scaleLinear innerWidth innerHeight
         initialState actions →
       is_Some (cluster2Of (run initialState actions)) →
       is_Some (cluster1Of (run initialState actions))).
Proof.
  split.
  - intros indices st. unfold cluster1Of, cluster2Of, selectCluster1.
    by rewrite clusters_set.
  - intros actions Hguard.
    apply (cluster2_needs_cluster1_run actions initialState); [|exact Hguard].
    intros [c Hc]. discriminate Hc.
Qed.

End BrushProperties.

(** ** Embedding points *)

Lemma embeddingData_set (data : list EmbeddingPoint.t) (st : DashboardState) :
  embeddingData (set_embeddingData data st) = data.
Proof. by destruct st. Qed.

Lemma setEmbeddingData_lookup embedding labels sd ms mv (st : DashboardState)
    (i : nat) :
  embeddingData (setEmbeddingData embedding labels sd ms mv st) !! i
  = (λ point, {| EmbeddingPoint.x := coordinate point 0;
                 EmbeddingPoint.y := coordinate point 1;
                 EmbeddingPoint.index := i;
                 EmbeddingPoint.label := labels !! i |}) <$> embedding !! i.
Proof.
  unfold setEmbeddingData. rewrite embeddingData_set.
  apply list_lookup_imap.
Qed.

Lemma setEmbeddingData_indices embedding labels sd ms mv (st : DashboardState) :
  EmbeddingPoint.index
    <$> embeddingData (setEmbeddingData embedding labels sd ms mv st)
  = seq 0 (length embedding).
Proof.
  apply list_eq. intros i.
  rewrite list_lookup_fmap, setEmbeddingData_lookup.
  destruct (embedding !! i) as [point|] eqn:Hi; cbn.
  - symmetry. apply lookup_seq. split; [done|].
    by apply lookup_lt_Some in Hi.
  - symmetry. apply lookup_seq_ge. by apply lookup_ge_None in Hi.
Qed.

(** C9: after [setEmbeddingData], the point at position [i] of the
    collection has [index = i], the row of the embedding (and of the labels)
    it was built from; the indices are pairwise distinct; and a point keeps
    that index under any filtering of the collection: at whatever position
    [j] it stands in the filtered array, its [index] still finds it in the
    original one. *)
Theorem embedding_index_is_original_row
    embedding labels sd ms mv (st : DashboardState) :
  let data := embeddingData (setEmbeddingData embedding labels sd ms mv st) in
  length data = length embedding
  ∧ (∀ (i : nat) (p : EmbeddingPoint.t),
       data !! i = Some p →
       EmbeddingPoint.index p = i
       ∧ ∃ row, embedding !! i = Some row
                ∧ EmbeddingPoint.x p = coordinate row 0
                ∧ EmbeddingPoint.y p = coordinate row 1
                ∧ EmbeddingPoint.label p = labels !! i)
  ∧ NoDup (EmbeddingPoint.index <$> data)
  ∧ (∀ (keep : EmbeddingPoint.t → bool) (j : nat) (p : EmbeddingPoint.t),
       filter (λ d, keep d = true) data !! j = Some p →
       data !! EmbeddingPoint.index p = Some p).
Proof.
  intros data.
  assert (Hrow : ∀ (i : nat) (p : EmbeddingPoint.t),
             data !! i = Some p →
             EmbeddingPoint.index p = i
             ∧ ∃ row, embedding !! i = Some row
                      ∧ EmbeddingPoint.x p = coordinate row 0
                      ∧ EmbeddingPoint.y p = coordinate row 1
                      ∧ EmbeddingPoint.label p = labels !! i).
  { intros i p Hp. subst data. rewrite setEmbeddingData_lookup in Hp.
    destruct (embedding !! i) as [row|]; [|discriminate Hp].
    cbn in Hp. injection Hp as <-. cbn. split; [done|]. by exists row. }
  split; [|split; [exact Hrow|split]].
  - subst data. unfold setEmbeddingData. rewrite embeddingData_set.
    apply length_imap.
  - subst data. rewrite setEmbeddingData_indices. apply NoDup_seq.
  - intros keep j p Hj.
    apply list_elem_of_lookup_2, list_elem_of_filter in Hj as [_ Hin].
    apply list_elem_of_lookup in Hin as [i Hi].
    destruct (Hrow i p Hi) as [-> _]. exact Hi.
Qed.

(** ** The summary of a snapshot *)

(** *** [Array.prototype.sort] with a comparator that subtracts a key *)

Section ArraySort.
Context {A : Type} (cmp : A → A → Z) (key : A → Z).
Hypothesis cmp_key : ∀ a b, cmp a b = key a - key b.

Lemma sort_insert_perm (a : A) (l : list A) : sort_insert cmp a l ≡ₚ a :: l.
Proof.
  induction l as [|b l IH]; cbn; [done|].
  destruct (cmp a b <=? 0); [done|].
  rewrite IH. apply Permutation_swap.
Qed.

Lemma array_sort_perm (l : list A) : array_sort cmp l ≡ₚ l.
Proof.
  induction l as [|a l IH]; cbn; [done|].
  fold (array_sort cmp l). by rewrite sort_insert_perm, IH.
Qed.

Lemma sort_insert_sorted (tie : A → A → Prop) (a : A) (l : list A) :
  StronglySorted (sorted_by key tie) l → Forall (tie a) l →
  StronglySorted (sorted_by key tie) (sort_insert cmp a l).
Proof.
  induction l as [|b l IH]; intros Hs Ht; cbn.
  - repeat constructor.
  - apply StronglySorted_cons in Hs as [Hb Hs].
    apply Forall_cons in Ht as [Htb Ht].
    destruct (cmp a b <=? 0) eqn:Hc.
    + apply Z.leb_le in Hc. rewrite cmp_key in Hc.
      apply StronglySorted_cons. split.
      * apply Forall_cons. split.
        { unfold sorted_by. destruct (decide (key a = key b)); [right|left];
            [done|lia]. }
        rewrite Forall_forall in Hb, Ht |- *. intros z Hz.
        specialize (Hb z Hz). specialize (Ht z Hz).
        unfold sorted_by in *.
        destruct (decide (key a = key z)); [right; done|left].
        destruct Hb as [Hb | [Hb _]]; lia.
      * apply StronglySorted_cons. done.
    + apply Z.leb_gt in Hc. rewrite cmp_key in Hc.
      apply StronglySorted_cons. split; [|by apply IH].
      rewrite sort_insert_perm. apply Forall_cons. split; [|done].
      left. lia.
Qed.

Lemma array_sort_sorted (tie : A → A → Prop) (l : list A) :
  StronglySorted tie l → StronglySorted (sorted_by key tie) (array_sort cmp l).
Proof.
  induction l as [|a l IH]; intros Hs; cbn; [constructor|].
  fold (array_sort cmp l).
  apply StronglySorted_cons in Hs as [Ha Hs].
  apply sort_insert_sorted; [by apply IH|].
  by rewrite array_sort_perm.
Qed.
End ArraySort.

(** *** Sorted lists *)

Lemma StronglySorted_weaken {A} (R R' : A → A → Prop) (l : list A) :
  (∀ a b, a ∈ l → b ∈ l → R a b → R' a b) →
  StronglySorted R l → StronglySorted R' l.
Proof.
  induction l as [|x l IH]; intros Himp Hs; [constructor|].
  apply StronglySorted_cons in Hs as [Hx Hs].
  apply StronglySorted_cons. split.
  - rewrite Forall_forall in Hx |- *. intros y Hy.
    apply Himp; [left|by right|by apply Hx].
  - apply IH; [|done]. intros a b Ha Hb. apply Himp; by right.
Qed.

Lemma StronglySorted_filter {A} (R : A → A → Prop) (P : A → Prop)
    `{!∀ a, Decision (P a)} (l : list A) :
  StronglySorted R l → StronglySorted R (filter P l).
Proof.
  induction l as [|x l IH]; intros Hs; [constructor|].
  apply StronglySorted_cons in Hs as [Hx Hs].
  rewrite filter_cons. destruct (decide (P x)); [|by apply IH].
  apply StronglySorted_cons. split; [|by apply IH].
  rewrite Forall_forall in Hx |- *. intros y Hy.
  apply Hx. by apply list_elem_of_filter in Hy as [_ Hy].
Qed.

Lemma StronglySorted_fst {K V} (R : K → K → Prop) (l : list (K * V)) :
  StronglySorted R l.*1 ↔ StronglySorted (λ e1 e2, R e1.1 e2.1) l.
Proof.
  induction l as [|e l IH]; [split; constructor|].
  rewrite fmap_cons, !StronglySorted_cons, IH, Forall_fmap. done.
Qed.

Lemma StronglySorted_NoDup {A} (R : A → A → Prop) (l : list A) :
  (∀ a, ¬ R a a) → StronglySorted R l → NoDup l.
Proof.
  intros Hirr. induction l as [|x l IH]; intros Hs; [constructor|].
  apply StronglySorted_cons in Hs as [Hx Hs].
  apply NoDup_cons. split; [|by apply IH].
  intros Hin. rewrite Forall_forall in Hx. by apply (Hirr x), Hx.
Qed.

(** *** The counting object *)

Lemma JsObject_get_set (o : JsObject.t) (k k' : string) (v : nat) :
  JsObject.get (JsObject.set o k v) k'
  = if bool_decide (k = k') then Some v else JsObject.get o k'.
Proof.
  induction o as [|[k0 v0] o IH]; cbn.
  - by case_bool_decide.
  - destruct (bool_decide (k0 = k)) eqn:H0; cbn.
    + apply bool_decide_eq_true in H0 as ->. by case_bool_decide.
    + apply bool_decide_eq_false in H0. rewrite IH.
      repeat case_bool_decide; congruence.
Qed.

Lemma JsObject_get_None (o : JsObject.t) (k : string) :
  JsObject.get o k = None ↔ k ∉ o.*1.
Proof.
  induction o as [|[k0 v0] o IH]; cbn.
  - split; [intros _; apply not_elem_of_nil|done].
  - rewrite not_elem_of_cons. case_bool_decide as Hk.
    + split; [discriminate|]. intros [Hne _]. by destruct Hne.
    + rewrite IH. split; [by split; [congruence|]|by intros [_ ?]].
Qed.

Lemma JsObject_get_elem_of (o : JsObject.t) (k : string) (v : nat) :
  NoDup o.*1 → (k, v) ∈ o ↔ JsObject.get o k = Some v.
Proof.
  induction o as [|[k0 v0] o IH]; cbn; intros Hnd.
  - split; [intros []%elem_of_nil|done].
  - apply NoDup_cons in Hnd as [Hk0 Hnd]. rewrite elem_of_cons.
    case_bool_decide as Hk.
    + subst k0. split.
      * intros [[= ->] | Hin]; [done|].
        exfalso. apply Hk0. by apply (list_elem_of_fmap_2 fst) in Hin.
      * intros [= ->]. by left.
    + rewrite <- (IH Hnd). split.
      * intros [[= -> ->] | Hin]; done.
      * intros Hin. by right.
Qed.

Lemma JsObject_set_keys (o : JsObject.t) (k : string) (v : nat) :
  (JsObject.set o k v).*1 = if decide (k ∈ o.*1) then o.*1 else o.*1 ++ [k].
Proof.
  induction o as [|[k0 v0] o IH]; cbn.
  - by rewrite decide_False by apply not_elem_of_nil.
  - case_bool_decide as Hk; cbn.
    + subst k0. by rewrite decide_True by left.
    + rewrite IH. destruct (decide (k ∈ o.*1)).
      * by rewrite decide_True by (by right).
      * rewrite decide_False; [done|].
        rewrite not_elem_of_cons. split; [congruence|done].
Qed.

(** *** First-seen positions and frequencies *)

Lemma first_seen_in_lt (vars : list string) (v : string) :
  v ∈ vars ↔ (first_seen_in vars v < length vars)%nat.
Proof.
  induction vars as [|w vars IH]; cbn.
  - split; [intros []%elem_of_nil|lia].
  - rewrite elem_of_cons, IH. case_bool_decide as Hk.
    + split; [lia|]. intros _. by left.
    + split; [intros [Heq | Hlt]; [congruence|lia]|]. intros Hlt. right. lia.
Qed.

Lemma first_seen_in_app_l (vars rest : list string) (v : string) :
  v ∈ vars → first_seen_in (vars ++ rest) v = first_seen_in vars v.
Proof.
  induction vars as [|w vars IH]; cbn; [intros []%elem_of_nil|].
  intros Hin. case_bool_decide; [done|]. f_equal. apply IH.
  apply elem_of_cons in Hin as [->|Hin]; done.
Qed.

Lemma first_seen_in_app_r (vars : list string) (v : string) :
  v ∉ vars → first_seen_in (vars ++ [v]) v = length vars.
Proof.
  induction vars as [|w vars IH]; cbn; intros Hin.
  - by rewrite bool_decide_eq_true_2.
  - apply not_elem_of_cons in Hin as [Hne Hin].
    rewrite bool_decide_eq_false_2 by done. f_equal. by apply IH.
Qed.

Lemma frequency_snoc (fs : list FeatureImportance.t) (f : FeatureImportance.t)
    (k : string) :
  frequency (fs ++ [f]) k
  = (frequency fs k
     + if decide (FeatureImportance.variable f = k) then 1 else 0)%nat.
Proof.
  unfold frequency. rewrite filter_app, length_app. f_equal.
  rewrite filter_cons, filter_nil. by destruct (decide _).
Qed.

Lemma frequency_absent (fs : list FeatureImportance.t) (k : string) :
  k ∉ variablesOf fs → frequency fs k = 0%nat.
Proof.
  unfold frequency, variablesOf. induction fs as [|f fs IH]; [done|].
  rewrite fmap_cons, not_elem_of_cons, filter_cons. intros [Hne Hin].
  rewrite decide_False by done. by apply IH.
Qed.

Lemma variableCounts_snoc (fs : list FeatureImportance.t)
    (f : FeatureImportance.t) :
  variableCounts (fs ++ [f])
  = JsObject.set (variableCounts fs) (FeatureImportance.variable f)
      (default 0%nat
         (JsObject.get (variableCounts fs) (FeatureImportance.variable f))
       + 1)%nat.
Proof. unfold variableCounts. by rewrite foldl_snoc. Qed.

(** The counting object holds, for each variable name seen, its frequency,
    and its keys are in first-seen order. *)
Lemma variableCounts_spec (fs : list FeatureImportance.t) :
  (∀ k : string,
     JsObject.get (variableCounts fs) k
     = if decide (k ∈ variablesOf fs) then Some (frequency fs k) else None)
  ∧ StronglySorted (λ a b, (first_seen fs a < first_seen fs b)%nat)
                   (variableCounts fs).*1.
Proof.
  induction fs as [|f fs [IHget IHkeys]] using rev_ind.
  - split; [intros k|constructor].
    cbn. by rewrite decide_False by apply not_elem_of_nil.
  - set (v := FeatureImportance.variable f).
    assert (Hvars : variablesOf (fs ++ [f]) = variablesOf fs ++ [v]).
    { unfold variablesOf. by rewrite fmap_app. }
    assert (Hkeys : ∀ k, k ∈ (variableCounts fs).*1 ↔ k ∈ variablesOf fs).
    { intros k. destruct (decide (k ∈ (variableCounts fs).*1)) as [Hin|Hin].
      - split; [intros _|done].
        destruct (decide (k ∈ variablesOf fs)) as [|Hn]; [done|].
        exfalso. apply JsObject_get_None in Hin; [done|].
        by rewrite IHget, decide_False.
      - split; [done|]. intros Hk. exfalso.
        apply JsObject_get_None in Hin. rewrite IHget, decide_True in Hin; done. }
    rewrite variableCounts_snoc. fold v. split.
    + intros k. rewrite JsObject_get_set, Hvars, frequency_snoc. fold v.
      case_bool_decide as Hk.
      * subst k. rewrite decide_True by (apply elem_of_app; right; by left).
        rewrite decide_True by done. rewrite IHget. f_equal.
        destruct (decide (v ∈ variablesOf fs)); cbn; [done|].
        by rewrite frequency_absent.
      * rewrite (decide_False (P := v = k)) by done. rewrite IHget.
        destruct (decide (k ∈ variablesOf fs)) as [Hin|Hin].
        -- rewrite decide_True by (apply elem_of_app; by left).
           f_equal. lia.
        -- rewrite decide_False; [done|].
           rewrite elem_of_app, list_elem_of_singleton.
           intros [? | ?]; [done|congruence].
    + rewrite JsObject_set_keys.
      assert (Hold : StronglySorted
                (λ a b, (first_seen (fs ++ [f]) a < first_seen (fs ++ [f]) b)%nat)
                (variableCounts fs).*1).
      { eapply StronglySorted_weaken; [|exact IHkeys].
        intros a b Ha Hb. unfold first_seen. rewrite Hvars.
        rewrite !first_seen_in_app_l by (by apply Hkeys). done. }
      destruct (decide (v ∈ (variableCounts fs).*1)) as [Hin|Hin]; [done|].
      apply StronglySorted_app. split; [|split; [done|repeat constructor]].
      intros a b Ha Hb. apply list_elem_of_singleton in Hb as ->.
      unfold first_seen. rewrite Hvars.
      rewrite first_seen_in_app_l by (by apply Hkeys).
      rewrite first_seen_in_app_r by (by rewrite <- Hkeys).
      apply first_seen_in_lt. by apply Hkeys.
Qed.

(** *** Array-index keys *)

Lemma digit_of_Some (c : ascii) (d : N) :
  JsObject.digit_of c = Some d → (d ≤ 9)%N ∧ N_of_ascii c = (d + 48)%N.
Proof.
  unfold JsObject.digit_of.
  destruct ((48 <=? N_of_ascii c)%N && (N_of_ascii c <=? 57)%N) eqn:H;
    [|discriminate].
  apply andb_true_iff in H as [H1%N.leb_le H2%N.leb_le].
  intros [= <-]. lia.
Qed.

Lemma digit_of_inj (c c' : ascii) (d : N) :
  JsObject.digit_of c = Some d → JsObject.digit_of c' = Some d → c = c'.
Proof.
  intros [_ H]%digit_of_Some [_ H']%digit_of_Some.
  rewrite <- (ascii_N_embedding c), <- (ascii_N_embedding c'). congruence.
Qed.

Lemma parse_digits_bounds (s : string) (acc n : N) :
  JsObject.parse_digits acc s = Some n →
  (acc * 10 ^ N.of_nat (String.length s) ≤ n
   < (acc + 1) * 10 ^ N.of_nat (String.length s))%N.
Proof.
  revert acc. induction s as [|c s IH]; intros acc; cbn [JsObject.parse_digits].
  - intros [= <-]. cbn. lia.
  - destruct (JsObject.digit_of c) as [d|] eqn:Hd; [|discriminate].
    cbn [mbind option_bind]. intros Hn. apply IH in Hn.
    apply digit_of_Some in Hd as [Hd _].
    cbn [String.length]. rewrite Nat2N.inj_succ, N.pow_succ_r'.
    set (p := (10 ^ N.of_nat (String.length s))%N) in *. nia.
Qed.

Lemma parse_digits_inj (s t : string) (acc acc' n : N) :
  String.length s = String.length t →
  JsObject.parse_digits acc s = Some n →
  JsObject.parse_digits acc' t = Some n →
  acc = acc' ∧ s = t.
Proof.
  revert t acc acc'. induction s as [|c s IH]; intros [|c' t] acc acc' Hlen;
    try discriminate Hlen; cbn [JsObject.parse_digits].
  - intros [= <-] [= <-]. done.
  - destruct (JsObject.digit_of c) as [d|] eqn:Hd; [|discriminate].
    destruct (JsObject.digit_of c') as [d'|] eqn:Hd'; [|discriminate].
    cbn [mbind option_bind]. intros Hs Ht.
    injection Hlen as Hlen.
    destruct (IH t _ _ Hlen Hs Ht) as [Hacc ->].
    pose proof (digit_of_Some _ _ Hd) as [Hd9 _].
    pose proof (digit_of_Some _ _ Hd') as [Hd9' _].
    assert (d = d') as <- by lia. assert (acc = acc') as <- by lia.
    split; [done|]. f_equal. by apply (digit_of_inj _ _ d).
Qed.

(** What [array_index] accepts: ["0"], or digits with a non-zero first one. *)
Lemma array_index_Some (k : string) (n : N) :
  JsObject.array_index k = Some n →
  (k = "0" ∧ n = 0%N)
  ∨ ∃ c rest d, k = String c rest ∧ JsObject.digit_of c = Some d
                ∧ (1 ≤ d ≤ 9)%N
                ∧ JsObject.parse_digits d rest = Some n.
Proof.
  destruct k as [|c rest]; [discriminate|]. unfold JsObject.array_index.
  destruct (Ascii.eqb c "0") eqn:Hc.
  - apply Ascii.eqb_eq in Hc as ->. case_bool_decide as Hr; [|discriminate].
    subst rest. intros [= <-]. by left.
  - apply Ascii.eqb_neq in Hc. cbn [JsObject.parse_digits].
    destruct (JsObject.digit_of c) as [d|] eqn:Hd; [|discriminate].
    cbn [mbind option_bind].
    destruct (JsObject.parse_digits (10 * 0 + d) rest) as [m|] eqn:Hm;
      [|discriminate].
    cbn [mbind option_bind]. destruct (m <? 2 ^ 32 - 1)%N; [|discriminate].
    intros [= <-]. right. exists c, rest, d.
    replace (10 * 0 + d)%N with d in Hm by lia.
    split; [done|]. split; [done|]. split; [|done].
    pose proof (digit_of_Some _ _ Hd) as [Hd9 _].
    destruct (decide (d = 0%N)) as [-> | ]; [|lia].
    exfalso. apply Hc. apply (digit_of_inj _ _ 0%N); [done|reflexivity].
Qed.

Lemma pow10_pos (n : nat) : (0 < 10 ^ N.of_nat n)%N.
Proof. apply N.neq_0_lt_0, N.pow_nonzero. lia. Qed.

Lemma leading_digit_length (d e m : N) (s t : string) :
  (1 ≤ d ≤ 9)%N → (1 ≤ e ≤ 9)%N →
  JsObject.parse_digits d s = Some m →
  JsObject.parse_digits e t = Some m →
  ¬ (String.length s < String.length t)%nat.
Proof.
  intros Hd He Hs%parse_digits_bounds Ht%parse_digits_bounds Hlt.
  assert (10 ^ N.of_nat (S (String.length s))
          ≤ 10 ^ N.of_nat (String.length t))%N as Hpow.
  { apply N.pow_le_mono_r; lia. }
  rewrite Nat2N.inj_succ, N.pow_succ_r' in Hpow.
  pose proof (pow10_pos (String.length s)).
  pose proof (pow10_pos (String.length t)).
  set (p := (10 ^ N.of_nat (String.length s))%N) in *.
  set (q := (10 ^ N.of_nat (String.length t))%N) in *.
  nia.
Qed.

Lemma array_index_inj (a b : string) (n : N) :
  JsObject.array_index a = Some n → JsObject.array_index b = Some n → a = b.
Proof.
  intros [[-> ->] | (c & s & d & -> & Hc & Hd & Hs)]%array_index_Some
         [[-> Hn] | (c' & t & e & -> & Hc' & He & Ht)]%array_index_Some.
  - done.
  - apply parse_digits_bounds in Ht.
    pose proof (pow10_pos (String.length t)). nia.
  - subst n. apply parse_digits_bounds in Hs.
    pose proof (pow10_pos (String.length s)). nia.
  - assert (String.length s = String.length t) as Hlen.
    { pose proof (leading_digit_length d e n s t Hd He Hs Ht).
      pose proof (leading_digit_length e d n t s He Hd Ht Hs). lia. }
    destruct (parse_digits_inj s t d e n Hlen Hs Ht) as [<- <-].
    f_equal. by apply (digit_of_inj _ _ d).
Qed.

(** *** Order of the entries and of the sorted names *)

Lemma variableCounts_keys (fs : list FeatureImportance.t) (k : string) :
  k ∈ (variableCounts fs).*1 ↔ k ∈ variablesOf fs.
Proof.
  destruct (variableCounts_spec fs) as [Hget _]. specialize (Hget k).
  destruct (decide (k ∈ variablesOf fs)) as [Hin|Hin].
  - split; [done|]. intros _.
    destruct (decide (k ∈ (variableCounts fs).*1)) as [|Hn]; [done|].
    apply JsObject_get_None in Hn. congruence.
  - split; [|done]. intros Hk. by apply JsObject_get_None in Hget.
Qed.

Lemma variableCounts_NoDup (fs : list FeatureImportance.t) :
  NoDup (variableCounts fs).*1.
Proof.
  destruct (variableCounts_spec fs) as [_ Hs].
  eapply StronglySorted_NoDup; [|exact Hs]. intros a. cbn. lia.
Qed.

Lemma variableCounts_value (fs : list FeatureImportance.t) (e : string * nat) :
  e ∈ variableCounts fs → e.2 = frequency fs e.1.
Proof.
  destruct e as [k v]. intros Hin. cbn.
  pose proof Hin as Hk. apply (list_elem_of_fmap_2 fst) in Hk.
  apply variableCounts_keys in Hk.
  apply JsObject_get_elem_of in Hin; [|apply variableCounts_NoDup].
  destruct (variableCounts_spec fs) as [Hget _].
  rewrite Hget, decide_True in Hin by done. congruence.
Qed.

Lemma entries_perm (o : JsObject.t) : JsObject.entries o ≡ₚ o.
Proof.
  unfold JsObject.entries.
  rewrite array_sort_perm.
  apply (filter_app_complement (λ e : string * nat,
                                  is_Some (JsObject.array_index e.1))).
Qed.

Lemma entries_key_order (fs : list FeatureImportance.t) :
  StronglySorted (λ e1 e2 : string * nat, key_before fs e1.1 e2.1)
                 (JsObject.entries (variableCounts fs)).
Proof.
  destruct (variableCounts_spec fs) as [_ Hs].
  apply StronglySorted_fst in Hs.
  set (o := variableCounts fs) in *.
  set (seen := λ e1 e2 : string * nat,
         (first_seen fs e1.1 < first_seen fs e2.1)%nat) in *.
  unfold JsObject.entries. apply StronglySorted_app. split; [|split].
  - intros e1 e2 H1 H2.
    rewrite array_sort_perm in H1.
    apply list_elem_of_filter in H1 as [[m Hm] _].
    apply list_elem_of_filter in H2 as [Hn _].
    unfold key_before. rewrite Hm.
    destruct (JsObject.array_index e2.1) as [n|]; [|done].
    exfalso. apply Hn. by eexists.
  - eapply StronglySorted_weaken;
      [|apply (array_sort_sorted _ JsObject.index_value); [done|];
        apply (StronglySorted_filter seen); exact Hs].
    intros e1 e2 H1 H2.
    rewrite array_sort_perm in H1, H2.
    apply list_elem_of_filter in H1 as [[m Hm] _].
    apply list_elem_of_filter in H2 as [[n Hn] _].
    unfold sorted_by, key_before, JsObject.index_value.
    rewrite Hm, Hn. cbn. intros [Hlt | [Heq Hseen]]; [lia|].
    exfalso. assert (m = n) as -> by lia.
    unfold seen in Hseen.
    rewrite (array_index_inj _ _ _ Hm Hn) in Hseen. lia.
  - eapply StronglySorted_weaken;
      [|apply (StronglySorted_filter seen); exact Hs].
    intros e1 e2 H1 H2.
    apply list_elem_of_filter in H1 as [Hm _].
    apply list_elem_of_filter in H2 as [Hn _].
    unfold key_before.
    destruct (JsObject.array_index e1.1); [exfalso; apply Hm; by eexists|].
    destruct (JsObject.array_index e2.1); [exfalso; apply Hn; by eexists|].
    done.
Qed.

Lemma sortedVars_ranking (fs : list FeatureImportance.t) :
  NoDup (sortedVars fs)
  ∧ (∀ v : string, v ∈ sortedVars fs ↔ v ∈ variablesOf fs)
  ∧ StronglySorted (ranked_key_order fs) (sortedVars fs).
Proof.
  set (count := λ e : string * nat, - Z.of_nat e.2).
  assert (Hcmp : ∀ a b : string * nat,
             Z.of_nat b.2 - Z.of_nat a.2 = count a - count b).
  { intros a b. unfold count. lia. }
  assert (Hperm : sortedVars fs ≡ₚ (variableCounts fs).*1).
  { unfold sortedVars. by rewrite array_sort_perm, entries_perm. }
  split; [|split].
  - rewrite Hperm. apply variableCounts_NoDup.
  - intros v. rewrite Hperm. apply variableCounts_keys.
  - unfold sortedVars. apply StronglySorted_fst.
    eapply StronglySorted_weaken;
      [|apply (array_sort_sorted _ count Hcmp), entries_key_order].
    intros e1 e2 H1 H2.
    rewrite array_sort_perm, entries_perm in H1, H2.
    apply variableCounts_value in H1, H2.
    unfold sorted_by, ranked_key_order, count. rewrite H1, H2.
    intros [Hlt | [Heq Hkey]]; [left; lia|right]. split; [lia|done].
Qed.

Lemma sortedVars_first_seen (fs : list FeatureImportance.t) :
  no_index_names fs → StronglySorted (ranked_first_seen fs) (sortedVars fs).
Proof.
  intros Hplain. destruct (sortedVars_ranking fs) as (_ & Hel & Hs).
  eapply StronglySorted_weaken; [|exact Hs].
  assert (Hnone : ∀ v, v ∈ sortedVars fs → JsObject.array_index v = None).
  { intros v Hv. apply Hel, list_elem_of_fmap in Hv as (f & -> & Hf).
    unfold no_index_names in Hplain. rewrite Forall_forall in Hplain.
    by apply Hplain. }
  intros a b Ha Hb. unfold ranked_key_order, ranked_first_seen, key_before.
  by rewrite (Hnone a Ha), (Hnone b Hb).
Qed.

(** C7 (as amended): the snapshot [saveCurrentAnalysis] creates stands at
    the head of the history, and its summary has: [significant_count], the
    number of topFeatures whose p-value is below 0.05; [top_variables], the
    first 3 names (all of them when fewer) of the ranking of the variable
    names by descending frequency over all topFeatures, equal frequencies in
    the key order of the counting object — names that are array indices
    first, by value, then the others in first-seen order; [top_racks], the
    racks of the first 5 topFeatures in their order.  When no name is an
    array index the ties are in first-seen order throughout.  Variable names
    are taken not to be names of [Object.prototype] members. *)
Theorem snapshot_summary (now : Z) (rnd : string) (date : Z)
    (st : DashboardState) (features : list FeatureImportance.t) :
  populated st → topFeatures st = Some features → plain_names features →
  ∃ snapshot rest,
    analysisHistory (saveCurrentAnalysis now rnd date st) = snapshot :: rest
    ∧ SavedAnalysis.top_features snapshot = features
    ∧ Summary.significant_count (SavedAnalysis.summary snapshot)
      = length (filter significant features)
    ∧ is_ranking (ranked_key_order features) features 3
        (Summary.top_variables (SavedAnalysis.summary snapshot))
    ∧ (no_index_names features →
       is_ranking (ranked_first_seen features) features 3
         (Summary.top_variables (SavedAnalysis.summary snapshot)))
    ∧ (length (Summary.top_variables (SavedAnalysis.summary snapshot)) ≤ 3)%nat
    ∧ Summary.top_racks (SavedAnalysis.summary snapshot)
      = FeatureImportance.rack <$> take 5 features
    ∧ ∀ i : nat,
        Summary.top_racks (SavedAnalysis.summary snapshot) !! i
        = if decide (i < 5)%nat
          then FeatureImportance.rack <$> features !! i else None.
Proof.
  intros Hpop Hf _.
  exists (snapshotOf now rnd date st), (take 9 (analysisHistory st)).
  split; [by apply save_history|].
  unfold snapshotOf. rewrite Hf. cbn.
  destruct (sortedVars_ranking features) as (Hnd & Hel & Hs).
  split; [done|]. split; [done|]. split; [|split; [|split; [|split]]].
  - exists (sortedVars features). done.
  - intros Hplain. exists (sortedVars features).
    split; [done|]. split; [done|]. split; [done|].
    by apply sortedVars_first_seen.
  - unfold slice_to. rewrite length_take. lia.
  - done.
  - intros i. unfold racks, slice_to. rewrite list_lookup_fmap.
    destruct (decide (i < 5)%nat).
    + by rewrite lookup_take_lt.
    + by rewrite lookup_take_ge by lia.
Qed.

(** * The properties on concrete inputs *)

Ltac by_evaluation :=
  lazymatch goal with
  | |- ?P => apply (@bool_decide_unpack P _); vm_compute; exact I
  end.

(** C1, as stated, fails: [selectCluster2] stores what it is given. *)
Lemma overlapping_clusters_reachable :
  ¬ clusters_disjoint (demo_run initialState
                      [SelectCluster1 [1]%nat; SelectCluster2 [1]%nat]).
Proof.
  intros H. apply (H 1%nat); vm_compute; left.
Qed.

Lemma clusters_stay_disjoint_witness :
  clusters_disjoint (demo_run initialState demo_actions).
Proof.
  apply (clusters_stay_disjoint extent scaleLinear 100 100 demo_actions).
  by_evaluation.
Defined.

Lemma brush_assignment_policy_witness :
  clusters (demo_brush left_half demo_loaded)
  = ClusterSelection.mk (Some [0; 2; 3]%nat) None
  ∧ clusters (demo_brush lower_right one_filled)
    = ClusterSelection.mk (Some [0; 2; 3]%nat) (Some [4]%nat)
  ∧ clusters (demo_brush whole_plot both_filled)
    = ClusterSelection.mk (Some [1]%nat) None.
Proof.
  split; [|split].
  - destruct (brush_assignment_policy extent scaleLinear 100 100
                left_half demo_loaded) as (H & _ & _);
      [by vm_compute|].
    exact (H eq_refl eq_refl).
  - destruct (brush_assignment_policy extent scaleLinear 100 100
                lower_right one_filled) as (_ & H & _);
      [by vm_compute|].
    exact (H [0; 2; 3]%nat eq_refl eq_refl).
  - destruct (brush_assignment_policy extent scaleLinear 100 100
                whole_plot both_filled) as (_ & _ & H);
      [by vm_compute|].
    exact (H [0; 2; 3]%nat [4]%nat eq_refl eq_refl).
Defined.

Lemma brush_candidates_witness :
  (0%nat ∉ selectedIndices extent scaleLinear 100 100 whole_plot one_filled)
  ∧ (1%nat ∈ selectedIndices extent scaleLinear 100 100 whole_plot one_filled
     ↔ inside whole_plot 88.461538461538453 11.538461538461542)
  ∧ demo_brush left_half one_filled = one_filled.
Proof.
  destruct (brush_candidates extent scaleLinear 100 100 whole_plot one_filled)
    as (Hassigned & _ & Hinside & _).
  destruct (brush_candidates extent scaleLinear 100 100 left_half one_filled)
    as (_ & _ & _ & _ & Hempty).
  split; [|split].
  - apply Hassigned. left. vm_compute. left.
  - apply (Hinside ltac:(by_evaluation)
             (EmbeddingPoint.mk 10 10 1 (Some 1))).
    + vm_compute. right. left.
    + unfold assigned. by_evaluation.
  - apply Hempty. reflexivity.
Defined.

Lemma history_bounded_witness :
  analysisHistory (saveCurrentAnalysis 11 "r" 11 demo_populated)
  = [snapshotOf 11 "r" 11 demo_populated]
  ∧ (length (analysisHistory (demo_run initialState demo_actions)) ≤ 10)%nat
  ∧ length (analysisHistory (saveCurrentAnalysis 11 "r" 11 ten_saved)) = 10%nat
  ∧ SavedAnalysis.id <$> analysisHistory (saveCurrentAnalysis 11 "r" 11 ten_saved)
    = ["11-r"; "10-r"; "9-r"; "8-r"; "7-r"; "6-r"; "5-r"; "4-r"; "3-r"; "2-r"].
Proof.
  destruct (history_bounded_most_recent_first extent scaleLinear 100 100)
    as (Hhead & Hbound & Hfull).
  split; [|split].
  - apply (Hhead 11 "r" 11 demo_populated). unfold populated. by_evaluation.
  - apply Hbound.
  - destruct (Hfull 11 "r" 11 ten_saved) as (kept & oldest & _ & _ & Hlen).
    + unfold populated. by_evaluation.
    + reflexivity.
    + split; [exact Hlen|reflexivity].
Defined.

Lemma toggle_sliding_window_witness :
  selectedHistoryIds
    (toggleHistorySelection "C"
       (toggleHistorySelection "B" (toggleHistorySelection "A" initialState)))
  = ["B"; "C"].
Proof.
  destruct toggle_sliding_window as (_ & _ & H).
  apply (H "A" "B" "C" initialState); try discriminate;
    apply not_elem_of_nil.
Defined.


(** C7, as stated, fails: with the variables ["2"] then ["1"], once each,
    the snapshot lists ["1"] first, against first-seen order. *)
Lemma first_seen_tie_break_fails :
  SavedAnalysis.summary <$> analysisHistory
      (saveCurrentAnalysis 11 "r" 11 numeric_populated)
  = [{| Summary.significant_count := 1;
        Summary.top_variables := ["1"; "2"];
        Summary.top_racks := ["A1"; "A2"] |}]
  ∧ ¬ is_ranking (ranked_first_seen numeric_features) numeric_features 3
        ["1"; "2"].
Proof.
  split; [reflexivity|].
  intros (all & Htake & _ & _ & Hsorted).
  assert (all = ["1"; "2"]) as ->.
  { destruct all as [|a [|b [|c all]]]; cbn in Htake;
      try discriminate Htake.
    by injection Htake as <- <-. }
  apply StronglySorted_cons in Hsorted as [Hhead _].
  apply Forall_cons in Hhead as [[Hlt | [_ Hlt]] _];
    vm_compute in Hlt; lia.
Qed.

Lemma snapshot_summary_witness :
  SavedAnalysis.summary <$> analysisHistory
      (saveCurrentAnalysis 11 "r" 11 demo_populated)
  = [{| Summary.significant_count := 3;
        Summary.top_variables := ["CPU"; "Water"; "AirIn"];
        Summary.top_racks := ["A1"; "A2"; "B1"; "B2"; "C1"] |}]
  ∧ is_ranking (ranked_key_order demo_features) demo_features 3
      ["CPU"; "Water"; "AirIn"]
  ∧ is_ranking (ranked_first_seen demo_features) demo_features 3
      ["CPU"; "Water"; "AirIn"].
Proof.
  split; [reflexivity|].
  destruct (snapshot_summary 11 "r" 11 demo_populated demo_features)
    as (snapshot & rest & Hhist & _ & _ & Hkey & Hseen & _).
  - unfold populated. by_evaluation.
  - reflexivity.
  - unfold plain_names. by_evaluation.
  - vm_compute in Hhist. injection Hhist as <- _. split; [exact Hkey|].
    apply Hseen. unfold no_index_names. by_evaluation.
Defined.

Lemma embedding_index_witness :
  ∃ p : EmbeddingPoint.t,
    filter (λ d, PrimFloat.leb 5 (EmbeddingPoint.x d) = true)
           (embeddingData demo_loaded) !! 2%nat = Some p
    ∧ EmbeddingPoint.index p = 4%nat
    ∧ embeddingData demo_loaded !! 4%nat = Some p.
Proof.
  exists (EmbeddingPoint.mk 8 2 4 (Some 1)).
  split; [reflexivity|]. split; [reflexivity|].
  destruct (embedding_index_is_original_row
              demo_embedding [0; 1; 2; 0; 1] [] [] [] initialState)
    as (_ & _ & _ & H).
  apply (H (λ d, PrimFloat.leb 5 (EmbeddingPoint.x d)) 2%nat
           (EmbeddingPoint.mk 8 2 4 (Some 1))).
  reflexivity.
Defined.

(** C10, as stated, fails: [selectCluster2] on the initial store sets
    cluster2 while cluster1 is unset. *)
Lemma cluster2_without_cluster1_reachable :
  ¬ cluster2_needs_cluster1 (demo_run initialState [SelectCluster2 [0]%nat]).
Proof.
  intros H. destruct H as [c Hc]; [by eexists|]. discriminate Hc.
Qed.

Lemma cluster2_set_implies_cluster1_set_witness :
  cluster2Of (selectCluster1 [3]%nat both_filled) = None
  ∧ is_Some (cluster1Of (demo_run initialState demo_actions)).
Proof.
  destruct (cluster2_set_implies_cluster1_set extent scaleLinear 100 100)
    as [Hselect1 Hreach].
  split.
  - apply (Hselect1 [3]%nat both_filled).
  - apply (Hreach demo_actions); by_evaluation.
Defined.

(** * Further properties of the store and of its callers *)

(** ** Brush gestures *)

Lemma embeddingData_set_clusters (c : ClusterSelection.t) (st : DashboardState) :
  embeddingData (set_clusters c st) = embeddingData st.
Proof. by destruct st. Qed.

Lemma set_clusters_frame (c : ClusterSelection.t) (st : DashboardState) :
  same_except_clusters st (set_clusters c st).
Proof. destruct st. unfold same_except_clusters. cbn. repeat split. Qed.

Lemma StronglySorted_sublist {A} (R : A → A → Prop) (l1 l2 : list A) :
  l1 `sublist_of` l2 → StronglySorted R l2 → StronglySorted R l1.
Proof.
  induction 1 as [|x l1 l2 Hsub IH|x l1 l2 Hsub IH]; intros Hs.
  - constructor.
  - apply StronglySorted_cons in Hs as [Hx Hs].
    apply StronglySorted_cons. split; [|by apply IH].
    rewrite Forall_forall in Hx |- *. intros y Hy. apply Hx.
    by apply (sublist_subseteq _ _ Hsub).
  - apply StronglySorted_cons in Hs as [_ Hs]. by apply IH.
Qed.

Lemma StronglySorted_seq (start n : nat) :
  StronglySorted lt (seq start n).
Proof.
  revert start. induction n as [|n IH]; intros start; cbn; [constructor|].
  apply StronglySorted_cons. split; [|apply IH].
  apply Forall_forall. intros i Hi. apply elem_of_seq in Hi. lia.
Qed.

Section BrushGestures.
Variable d3_extent : list float → float * float.
Variable d3_scaleLinear : float * float → float * float → float → float.
Variables innerWidth innerHeight : float.

Ltac open_xScale := unfold xScale.
Ltac open_yScale := unfold yScale.
Ltac open_selected := unfold selectedIndices, brushedPoints, brushFilter.
Ltac step_gesture := cbn [dispatch].

Abbreviation selectedIndices :=
  (selectedIndices d3_extent d3_scaleLinear innerWidth innerHeight).
Abbreviation handleBrushEnd :=
  (handleBrushEnd d3_extent d3_scaleLinear innerWidth innerHeight).
Abbreviation dispatch := (dispatch d3_extent d3_scaleLinear innerWidth innerHeight).
Abbreviation run := (run d3_extent d3_scaleLinear innerWidth innerHeight).

(** The candidates depend on the state through the points and the clusters
    only. *)
Lemma selectedIndices_ext (sel : BrushSelection) (st st' : DashboardState) :
  embeddingData st' = embeddingData st → clusters st' = clusters st →
  selectedIndices sel st' = selectedIndices sel st.
Proof.
  intros Hd Hc. open_selected. open_xScale. open_yScale.
  by rewrite Hd, Hc.
Qed.

Lemma brush_again_empty (sel : BrushSelection) (st : DashboardState)
    (c : ClusterSelection.t) :
  (∀ i, assigned st i ∨ i ∈ selectedIndices sel st →
        assigned (set_clusters c st) i) →
  selectedIndices sel (set_clusters c st) = [].
Proof.
  intros Hgrow.
  destruct (selectedIndices sel (set_clusters c st)) as [|i rest] eqn:He;
    [done|exfalso].
  assert (Hi : i ∈ selectedIndices sel (set_clusters c st))
    by (rewrite He; left).
  apply (elem_of_selectedIndices d3_extent d3_scaleLinear innerWidth
           innerHeight) in Hi as (d & Hd & Hidx & Hn & Hin).
  rewrite embeddingData_set_clusters in Hd, Hin.
  apply Hn, Hgrow.
  destruct (decide (assigned st i)) as [|Hna]; [by left|right].
  apply (elem_of_selectedIndices d3_extent d3_scaleLinear innerWidth
           innerHeight).
  by exists d.
Qed.

(** X1: while cluster2 is unset, a brush gesture repeated over the same
    rectangle changes nothing the second time: the points it took are now
    assigned, and nothing the first gesture excluded has been released. *)
Theorem brush_twice_is_brush_once (sel : BrushSelection) (st : DashboardState) :
  cluster2Of st = None →
  handleBrushEnd (Some sel) (handleBrushEnd (Some sel) st)
  = handleBrushEnd (Some sel) st.
Proof.
  intros H2.
  destruct (decide (selectedIndices sel st = [])) as [He | Hne].
  { by rewrite !(handleBrushEnd_empty _ _ _ _ _ _ He). }
  rewrite (handleBrushEnd_assign _ _ _ _ _ _ Hne), H2.
  destruct (cluster1Of st) as [c1|] eqn:H1;
    unfold selectCluster1, selectCluster2;
    apply handleBrushEnd_empty, brush_again_empty;
    intros i Hi; unfold assigned, cluster1Of, cluster2Of;
    rewrite clusters_set; cbn.
  - fold (cluster1Of st). rewrite H1. cbn.
    destruct Hi as [[Hi | Hi] | Hi]; [left|exfalso|by right].
    + by rewrite H1 in Hi.
    + rewrite H2 in Hi. by apply elem_of_nil in Hi.
  - destruct Hi as [[Hi | Hi] | Hi]; [exfalso|exfalso|by left].
    + rewrite H1 in Hi. by apply elem_of_nil in Hi.
    + rewrite H2 in Hi. by apply elem_of_nil in Hi.
Qed.

(** X2: a brush gesture writes nothing but [clusters]: the analysis
    results, the interpretation, the history and every other key stay as
    they were, whatever the rectangle. *)
Theorem brush_writes_clusters_only (selection : option BrushSelection)
    (st : DashboardState) :
  same_except_clusters st (handleBrushEnd selection st).
Proof.
  destruct (handleBrushEnd_clusters_only d3_extent d3_scaleLinear innerWidth
              innerHeight selection st) as [c ->].
  apply set_clusters_frame.
Qed.

(** X3: when a third selection restarts the pair in a state whose analysis
    is shown, the summary tab still shows the old cards with the save
    button, and pressing it does nothing: cluster2 is unset. *)
Theorem stale_results_after_third_selection
    (sel : BrushSelection) (st : DashboardState)
    (f : FeatureImportance.t) (fs : list FeatureImportance.t)
    (card : InterpretationSection.t) (cards : list InterpretationSection.t) :
  is_Some (cluster1Of st) → is_Some (cluster2Of st) →
  topFeatures st = Some (f :: fs) → interpretation st = Some (card :: cards) →
  isLoading st = false →
  selectedIndices sel st ≠ [] →
  SummaryTab (handleBrushEnd (Some sel) st) = Sections (card :: cards) true
  ∧ ∀ now rnd date,
      saveCurrentAnalysis now rnd date (handleBrushEnd (Some sel) st)
      = handleBrushEnd (Some sel) st.
Proof.
  intros [c1 H1] [c2 H2] Hf Hi Hl Hne.
  rewrite (handleBrushEnd_assign _ _ _ _ _ _ Hne), H1, H2.
  unfold selectCluster1, SummaryTab, saveCurrentAnalysis.
  destruct st. cbn in *. subst. split; reflexivity.
Qed.

Lemma dispatch_embeddingData (st : DashboardState) (a : Action) :
  embeddingData (dispatch st a)
  = match a with
    | SetEmbeddingData embedding labels sd ms mv =>
        embeddingData (setEmbeddingData embedding labels sd ms mv st)
    | _ => embeddingData st
    end.
Proof.
  destruct a; step_gesture; try (by destruct st).
  - unfold saveCurrentAnalysis. repeat case_match; by destruct st.
  - unfold toggleHistorySelection. case_bool_decide; by destruct st.
  - destruct (handleBrushEnd_clusters_only d3_extent d3_scaleLinear innerWidth
                innerHeight selection st) as [c ->].
    apply embeddingData_set_clusters.
Qed.

Lemma indices_are_positions_run (actions : list Action) :
  indices_are_positions (run initialState actions).
Proof.
  apply (run_invariant d3_extent d3_scaleLinear innerWidth innerHeight
           indices_are_positions); [|reflexivity].
  intros st a Hinv. unfold indices_are_positions.
  rewrite dispatch_embeddingData. destruct a; try exact Hinv.
  rewrite setEmbeddingData_indices. f_equal.
  unfold setEmbeddingData. by rewrite embeddingData_set, length_imap.
Qed.

(** X4: in every state reachable from the initial store the point at
    position [i] has index [i]; hence the candidates of any brush rectangle
    are strictly increasing, without repetition, and each of them is a
    position of the current point collection. *)
Theorem brush_candidates_are_rows (actions : list Action) (sel : BrushSelection) :
  let st := run initialState actions in
  (∀ (i : nat) (p : EmbeddingPoint.t),
     embeddingData st !! i = Some p → EmbeddingPoint.index p = i)
  ∧ StronglySorted lt (selectedIndices sel st)
  ∧ NoDup (selectedIndices sel st)
  ∧ Forall (λ i, (i < length (embeddingData st))%nat) (selectedIndices sel st).
Proof.
  intros st. pose proof (indices_are_positions_run actions) as Hpos.
  fold st in Hpos. unfold indices_are_positions in Hpos.
  assert (Hsub : selectedIndices sel st
                 `sublist_of` seq 0 (length (embeddingData st))).
  { rewrite <- Hpos. open_selected. apply fmap_sublist, sublist_filter. }
  assert (Hsorted : StronglySorted lt (selectedIndices sel st)).
  { eapply StronglySorted_sublist; [exact Hsub|apply StronglySorted_seq]. }
  split; [|split; [done|split]].
  - intros i p Hp.
    assert ((EmbeddingPoint.index <$> embeddingData st) !! i
            = Some (EmbeddingPoint.index p)) as Hi
      by (by rewrite list_lookup_fmap, Hp).
    rewrite Hpos in Hi. apply lookup_seq in Hi. lia.
  - eapply StronglySorted_NoDup; [|exact Hsorted]. intros i. lia.
  - apply Forall_forall. intros i Hi.
    apply (sublist_subseteq _ _ Hsub), elem_of_seq in Hi. lia.
Qed.

End BrushGestures.

(** ** Class weights *)

Lemma classWeights_set (w : list ClassWeight.t) (st : DashboardState) :
  classWeights (set_classWeights w st) = w.
Proof. by destruct st. Qed.

Lemma set_classWeights_same (st : DashboardState) :
  set_classWeights (classWeights st) st = st.
Proof. by destruct st. Qed.

Lemma imap_id_ext {A} (f : nat → A → A) (l : list A) :
  (∀ i x, l !! i = Some x → f i x = x) → imap f l = l.
Proof.
  intros Hf. apply list_eq. intros i. rewrite list_lookup_imap.
  destruct (l !! i) as [x|] eqn:Hi; cbn; [|done]. by rewrite (Hf i x Hi).
Qed.

(** X5: [updateWeight] keeps the number of class weights; it merges the
    given keys into the entry at [classIndex] and leaves every other entry
    as it was; with an index that is negative or past the end it returns
    the state unchanged. *)
Theorem updateWeight_touches_one_entry
    (classIndex : Z) (weight : ClassWeight.partial) (st : DashboardState) :
  length (classWeights (updateWeight classIndex weight st))
  = length (classWeights st)
  ∧ (∀ (j : nat) (w : ClassWeight.t),
       classWeights st !! j = Some w →
       classWeights (updateWeight classIndex weight st) !! j
       = Some (if decide (Z.of_nat j = classIndex)
               then ClassWeight.spread w weight else w))
  ∧ (classIndex < 0 ∨ Z.of_nat (length (classWeights st)) ≤ classIndex →
     updateWeight classIndex weight st = st).
Proof.
  unfold updateWeight. rewrite classWeights_set. split; [|split].
  - apply length_imap.
  - intros j w Hj. rewrite list_lookup_imap, Hj. cbn.
    destruct (decide (Z.of_nat j = classIndex)) as [Heq | Hne].
    + by rewrite (proj2 (Z.eqb_eq _ _) Heq).
    + by rewrite (proj2 (Z.eqb_neq _ _) Hne).
  - intros Hout. rewrite imap_id_ext; [apply set_classWeights_same|].
    intros i w Hi. apply lookup_lt_Some in Hi.
    rewrite (proj2 (Z.eqb_neq _ _)); [done|lia].
Qed.

(** ** The comparison selection, continued *)

Lemma set_selectedHistoryIds_same (st : DashboardState) :
  set_selectedHistoryIds (selectedHistoryIds st) st = st.
Proof. by destruct st. Qed.

Lemma set_selectedHistoryIds_twice (a b : list string) (st : DashboardState) :
  set_selectedHistoryIds a (set_selectedHistoryIds b st)
  = set_selectedHistoryIds a st.
Proof. by destruct st. Qed.

Lemma filter_ne_absent (id : string) (l : list string) :
  id ∉ l → filter (λ hid, hid ≠ id) l = l.
Proof.
  induction l as [|x l IH]; [done|].
  rewrite not_elem_of_cons, filter_cons. intros [Hne Hin].
  rewrite decide_True by congruence. by rewrite IH.
Qed.

(** X6: toggling a selected id removes it from the selection; toggling an
    unselected id twice gives back the state it started from when fewer
    than 2 ids were selected, and otherwise has dropped the oldest id. *)
Theorem toggle_twice (id : string) (st : DashboardState) :
  (id ∈ selectedHistoryIds st →
   id ∉ selectedHistoryIds (toggleHistorySelection id st))
  ∧ (id ∉ selectedHistoryIds st →
     (length (selectedHistoryIds st) < 2)%nat →
     toggleHistorySelection id (toggleHistorySelection id st) = st)
  ∧ (∀ a b : string,
       id ∉ selectedHistoryIds st → selectedHistoryIds st = [a; b] →
       selectedHistoryIds
         (toggleHistorySelection id (toggleHistorySelection id st)) = [b]).
Proof.
  assert (Htwice : id ∉ selectedHistoryIds st →
            toggleHistorySelection id (toggleHistorySelection id st)
            = set_selectedHistoryIds
                (slice_last 1 (selectedHistoryIds st)) st).
  { intros Hid. pose proof (toggle_unselected id st Hid) as H1.
    rewrite slice_last_snoc1 in H1.
    unfold toggleHistorySelection at 1. rewrite H1.
    rewrite bool_decide_eq_true_2 by (apply elem_of_app; right; left).
    unfold toggleHistorySelection.
    rewrite bool_decide_eq_false_2 by done.
    rewrite set_selectedHistoryIds_twice. f_equal.
    rewrite filter_app, filter_cons, filter_nil.
    rewrite decide_False by (intros Hne; by apply Hne).
    rewrite app_nil_r. apply filter_ne_absent.
    intros Hin. apply Hid. unfold slice_last in Hin.
    by apply (subseteq_drop _ (selectedHistoryIds st)) in Hin. }
  split; [|split].
  - intros Hid. unfold toggleHistorySelection.
    rewrite bool_decide_eq_true_2 by done.
    rewrite selectedHistoryIds_set, list_elem_of_filter. by intros [Hne _].
  - intros Hid Hlen. rewrite (Htwice Hid).
    unfold slice_last.
    replace (length (selectedHistoryIds st) - 1)%nat with 0%nat by lia.
    apply set_selectedHistoryIds_same.
  - intros a b Hid Hsel. rewrite (Htwice Hid), selectedHistoryIds_set.
    by rewrite Hsel.
Qed.

Lemma toggle_NoDup (id : string) (st : DashboardState) :
  NoDup (selectedHistoryIds st) →
  NoDup (selectedHistoryIds (toggleHistorySelection id st)).
Proof.
  intros Hnd. unfold toggleHistorySelection. case_bool_decide as Hid;
    rewrite selectedHistoryIds_set.
  - by apply NoDup_filter.
  - unfold slice_last. eapply sublist_NoDup; [|apply sublist_drop].
    apply NoDup_app. split; [done|]. split; [|apply NoDup_singleton].
    intros x Hx Hx'. apply list_elem_of_singleton in Hx'. by subst.
Qed.

Section ReachableStates.
Variable d3_extent : list float → float * float.
Variable d3_scaleLinear : float * float → float * float → float → float.
Variables innerWidth innerHeight : float.

Ltac step_action := cbn [dispatch].

Abbreviation dispatch := (dispatch d3_extent d3_scaleLinear innerWidth innerHeight).
Abbreviation run := (run d3_extent d3_scaleLinear innerWidth innerHeight).

Lemma dispatch_selectedHistoryIds (st : DashboardState) (a : Action) :
  selectedHistoryIds (dispatch st a)
  = match a with
    | SetEmbeddingData _ _ _ _ _ => []
    | ClearHistory => []
    | ClearHistorySelection => []
    | ToggleHistorySelection id =>
        selectedHistoryIds (toggleHistorySelection id st)
    | _ => selectedHistoryIds st
    end.
Proof.
  destruct a; step_action; try (by destruct st).
  - unfold saveCurrentAnalysis. repeat case_match; by destruct st.
  - destruct (handleBrushEnd_clusters_only d3_extent d3_scaleLinear innerWidth
                innerHeight selection st) as [c ->].
    by destruct st.
Qed.

(** X7: in every state reachable from the initial store the comparison
    selection holds at most 2 ids and holds no id twice. *)
Theorem selection_at_most_two_distinct (actions : list Action) :
  (length (selectedHistoryIds (run initialState actions)) ≤ 2)%nat
  ∧ NoDup (selectedHistoryIds (run initialState actions)).
Proof.
  apply (run_invariant d3_extent d3_scaleLinear innerWidth innerHeight
           (λ st, (length (selectedHistoryIds st) ≤ 2)%nat
                  ∧ NoDup (selectedHistoryIds st))).
  - intros st a [Hlen Hnd]. rewrite dispatch_selectedHistoryIds.
    destruct a; try done; cbn; try (split; [lia|constructor]).
    split; [by apply toggle_length|by apply toggle_NoDup].
  - cbn. split; [lia|constructor].
Qed.

(** X8: no operation rewrites a saved analysis.  After any action the
    history is either a selection of the entries it held, in their order,
    or, for a save in a populated state, the new snapshot followed by the
    most recent 9 of them. *)
Theorem history_entries_only_evicted (st : DashboardState) (a : Action) :
  analysisHistory (dispatch st a) `sublist_of` analysisHistory st
  ∨ ∃ now rnd date,
      a = SaveCurrentAnalysis now rnd date ∧ populated st
      ∧ analysisHistory (dispatch st a)
        = snapshotOf now rnd date st :: take 9 (analysisHistory st).
Proof.
  rewrite (dispatch_history d3_extent d3_scaleLinear innerWidth innerHeight).
  destruct a; try (by left); try (left; apply sublist_nil_l).
  destruct (decide (populated st)) as [Hpop | Hno].
  - right. exists now, rnd, date. split; [done|]. split; [done|].
    by apply save_history.
  - left. unfold saveCurrentAnalysis. unfold populated, cluster1Of, cluster2Of in Hno.
    destruct (ClusterSelection.cluster1 (clusters st)) as [c1|]; [|done].
    destruct (ClusterSelection.cluster2 (clusters st)) as [c2|]; [|done].
    destruct (topFeatures st) as [f|]; [|done].
    destruct (interpretation st) as [s|]; [|done].
    exfalso. apply Hno. repeat split; by eexists.
Qed.

End ReachableStates.

(** ** The compare tab *)

Lemma new_Set_snoc (l : list string) (v : string) :
  new_Set (l ++ [v]) = set_add (new_Set l) v.
Proof. unfold new_Set. by rewrite foldl_snoc. Qed.

Lemma elem_of_new_Set (l : list string) (v : string) :
  v ∈ new_Set l ↔ v ∈ l.
Proof.
  induction l as [|w l IH] using rev_ind.
  - done.
  - rewrite new_Set_snoc, elem_of_app, list_elem_of_singleton, <- IH.
    unfold set_add. case_bool_decide as Hw.
    + split; [by left|]. intros [? | ->]; done.
    + by rewrite elem_of_app, list_elem_of_singleton.
Qed.

Lemma NoDup_new_Set (l : list string) : NoDup (new_Set l).
Proof.
  induction l as [|w l IH] using rev_ind; [constructor|].
  rewrite new_Set_snoc. unfold set_add. case_bool_decide as Hw; [done|].
  apply NoDup_app. split; [done|]. split; [|apply NoDup_singleton].
  intros x Hx Hx'. apply list_elem_of_singleton in Hx'. by subst.
Qed.

Lemma new_Set_length (l : list string) : (length (new_Set l) ≤ length l)%nat.
Proof.
  induction l as [|w l IH] using rev_ind; [done|].
  rewrite new_Set_snoc, length_app. unfold set_add. cbn.
  case_bool_decide; [lia|]. rewrite length_app. cbn. lia.
Qed.

Lemma elem_of_comparedKeys (a : SavedAnalysis.t) (k : string) :
  k ∈ comparedKeys a ↔ k ∈ topKeys a.
Proof. apply elem_of_new_Set. Qed.

Lemma comparedKeys_length (a : SavedAnalysis.t) :
  (length (comparedKeys a) ≤ 10)%nat.
Proof.
  unfold comparedKeys. etrans; [apply new_Set_length|].
  unfold slice_to. rewrite length_fmap, length_take. lia.
Qed.

(** X9: the three buckets of the compare tab are the common keys, the keys
    of the first analysis only and the keys of the second only, among the
    first 10 feature keys of each; a key is in at most one bucket and
    appears once; an analysis spreads at most 10 keys over its two buckets;
    exchanging the analyses exchanges the two "only" buckets and keeps the
    common keys, up to their order. *)
Theorem compare_buckets (a1 a2 : SavedAnalysis.t) :
  (∀ k, k ∈ Comparison.common (compare a1 a2)
        ↔ k ∈ topKeys a1 ∧ k ∈ topKeys a2)
  ∧ (∀ k, k ∈ Comparison.onlyIn1 (compare a1 a2)
          ↔ k ∈ topKeys a1 ∧ k ∉ topKeys a2)
  ∧ (∀ k, k ∈ Comparison.onlyIn2 (compare a1 a2)
          ↔ k ∈ topKeys a2 ∧ k ∉ topKeys a1)
  ∧ NoDup (Comparison.common (compare a1 a2)
           ++ Comparison.onlyIn1 (compare a1 a2)
           ++ Comparison.onlyIn2 (compare a1 a2))
  ∧ (length (Comparison.common (compare a1 a2))
     + length (Comparison.onlyIn1 (compare a1 a2)) ≤ 10)%nat
  ∧ (length (Comparison.common (compare a1 a2))
     + length (Comparison.onlyIn2 (compare a1 a2)) ≤ 10)%nat
  ∧ Comparison.common (compare a2 a1) ≡ₚ Comparison.common (compare a1 a2)
  ∧ Comparison.onlyIn1 (compare a2 a1) = Comparison.onlyIn2 (compare a1 a2)
  ∧ Comparison.onlyIn2 (compare a2 a1) = Comparison.onlyIn1 (compare a1 a2).
Proof.
  assert (Hcommon : ∀ x y k,
            k ∈ Comparison.common (compare x y)
            ↔ k ∈ topKeys x ∧ k ∈ topKeys y).
  { intros x y k. cbn. by rewrite list_elem_of_filter, !elem_of_comparedKeys,
      (comm and). }
  assert (Honly1 : ∀ k, k ∈ Comparison.onlyIn1 (compare a1 a2)
                        ↔ k ∈ topKeys a1 ∧ k ∉ topKeys a2).
  { intros k. cbn. by rewrite list_elem_of_filter, !elem_of_comparedKeys,
      (comm and). }
  assert (Honly2 : ∀ k, k ∈ Comparison.onlyIn2 (compare a1 a2)
                        ↔ k ∈ topKeys a2 ∧ k ∉ topKeys a1).
  { intros k. cbn. by rewrite list_elem_of_filter, !elem_of_comparedKeys,
      (comm and). }
  assert (Hnd : ∀ x y, NoDup (Comparison.common (compare x y))).
  { intros x y. cbn. apply NoDup_filter, NoDup_new_Set. }
  assert (Hsplit : ∀ x y,
            Comparison.common (compare x y) ++ Comparison.onlyIn1 (compare x y)
            ≡ₚ comparedKeys x).
  { intros x y. cbn.
    apply (filter_app_complement (λ f, f ∈ comparedKeys y)). }
  assert (Hsym : Comparison.common (compare a2 a1)
                 ≡ₚ Comparison.common (compare a1 a2)).
  { apply NoDup_Permutation; [apply Hnd..|].
    intros k. rewrite !Hcommon. tauto. }
  split; [apply Hcommon|]. split; [exact Honly1|]. split; [exact Honly2|].
  split; [|split; [|split; [|split; [exact Hsym|split; reflexivity]]]].
  - apply NoDup_app. split; [apply Hnd|]. split.
    + intros k Hk [H1 | H2]%elem_of_app.
      * apply Hcommon in Hk. apply Honly1 in H1. tauto.
      * apply Hcommon in Hk. apply Honly2 in H2. tauto.
    + apply NoDup_app. split; [cbn; apply NoDup_filter, NoDup_new_Set|].
      split; [|cbn; apply NoDup_filter, NoDup_new_Set].
      intros k H1 H2. apply Honly1 in H1. apply Honly2 in H2. tauto.
  - rewrite <- length_app, (Hsplit a1 a2). apply comparedKeys_length.
  - rewrite <- Hsym.
    change (Comparison.onlyIn2 (compare a1 a2))
      with (Comparison.onlyIn1 (compare a2 a1)).
    rewrite <- length_app, (Hsplit a2 a1). apply comparedKeys_length.
Qed.

Lemma selectedAnalyses_sublist (st : DashboardState) :
  selectedAnalyses st `sublist_of` analysisHistory st.
Proof. apply sublist_filter. Qed.

Lemma CompareTab_Some (st : DashboardState) :
  is_Some (CompareTab st) ↔ length (selectedAnalyses st) = 2%nat.
Proof.
  unfold CompareTab.
  destruct (selectedAnalyses st) as [|x [|y [|z l]]]; cbn;
    split; try done; try (intros [c Hc]; discriminate Hc).
Qed.

(** X10: with distinct ids in the history and two distinct ids selected,
    the compare tab shows a comparison exactly when both ids are still in
    the history; the analyses it compares are taken in history order, the
    more recently saved one first, whatever the order of selection. *)
Theorem compare_needs_both_in_history
    (st : DashboardState) (a b : string) :
  NoDup (SavedAnalysis.id <$> analysisHistory st) →
  selectedHistoryIds st = [a; b] → a ≠ b →
  (is_Some (CompareTab st)
   ↔ a ∈ SavedAnalysis.id <$> analysisHistory st
     ∧ b ∈ SavedAnalysis.id <$> analysisHistory st)
  ∧ ∀ c : Comparison.t,
      CompareTab st = Some c →
      [Comparison.analysis1 c; Comparison.analysis2 c]
        `sublist_of` analysisHistory st
      ∧ c = compare (Comparison.analysis1 c) (Comparison.analysis2 c).
Proof.
  intros Hnd Hsel Hab.
  set (ids := SavedAnalysis.id <$> selectedAnalyses st).
  assert (Hids_nd : NoDup ids).
  { eapply sublist_NoDup; [exact Hnd|].
    apply fmap_sublist, selectedAnalyses_sublist. }
  assert (Hids : ∀ x, x ∈ ids ↔
                      x ∈ [a; b] ∧ x ∈ SavedAnalysis.id <$> analysisHistory st).
  { intros x. unfold ids, selectedAnalyses. rewrite !list_elem_of_fmap. split.
    - intros (s & -> & Hs). apply list_elem_of_filter in Hs as [Hin Hs].
      rewrite Hsel in Hin. split; [done|]. by exists s.
    - intros [Hx (s & -> & Hs)]. exists s. split; [done|].
      apply list_elem_of_filter. by rewrite Hsel. }
  assert (Hle : (length ids ≤ 2)%nat).
  { apply (submseteq_length ids [a; b]), NoDup_submseteq; [done|].
    intros x Hx. by apply Hids in Hx as [Hx _]. }
  split.
  - rewrite CompareTab_Some.
    replace (length (selectedAnalyses st)) with (length ids)
      by apply length_fmap.
    split.
    + intros Hlen.
      assert (ids ≡ₚ [a; b]) as Hperm.
      { apply submseteq_length_Permutation; [|cbn; lia].
        apply NoDup_submseteq; [done|].
        intros x Hx. by apply Hids in Hx as [Hx _]. }
      split.
      * assert (a ∈ ids) as Ha by (rewrite Hperm; left).
        by apply Hids in Ha as [_ Ha].
      * assert (b ∈ ids) as Hb by (rewrite Hperm; right; left).
        by apply Hids in Hb as [_ Hb].
    + intros [Ha Hb].
      assert ([a; b] ⊆+ ids) as Hsub.
      { apply NoDup_submseteq.
        - apply NoDup_cons. split; [|apply NoDup_singleton].
          by intros ->%list_elem_of_singleton.
        - intros x Hx. apply Hids. split; [done|].
          apply elem_of_cons in Hx as [-> | ->%list_elem_of_singleton]; done. }
      apply submseteq_length in Hsub. cbn in Hsub. lia.
  - intros c Hc. unfold CompareTab in Hc.
    pose proof (selectedAnalyses_sublist st) as Hsub.
    destruct (selectedAnalyses st) as [|x [|y [|z l]]]; try discriminate Hc.
    injection Hc as <-. cbn. done.
Qed.

Lemma append_empty (s : string) : "" +:+ s = s.
Proof. reflexivity. Qed.

Lemma append_String (c : ascii) (r s : string) :
  String c r +:+ s = String c (r +:+ s).
Proof. reflexivity. Qed.

Lemma append_dash_inj (r1 r2 v1 v2 : string) :
  occurs "-" r1 = false → occurs "-" r2 = false →
  r1 +:+ "-" +:+ v1 = r2 +:+ "-" +:+ v2 → r1 = r2 ∧ v1 = v2.
Proof.
  revert r2. induction r1 as [|c r1 IH]; intros [|c' r2]; cbn;
    repeat (rewrite append_empty || rewrite append_String);
    intros H1 H2 Heq.
  - by injection Heq as ->.
  - injection Heq as <- _. apply orb_false_iff in H2 as [H2 _].
    by rewrite Ascii.eqb_refl in H2.
  - injection Heq as -> _. apply orb_false_iff in H1 as [H1 _].
    by rewrite Ascii.eqb_refl in H1.
  - injection Heq as <- Heq.
    apply orb_false_iff in H1 as [_ H1]. apply orb_false_iff in H2 as [_ H2].
    destruct (IH r2 H1 H2 Heq) as [-> ->]. done.
Qed.

(** X11: the key [rack-variable] under which the compare tab identifies a
    feature tells two features apart whenever no rack name contains a
    hyphen; with a hyphen in a rack name, two features with different racks
    and variables can share a key. *)
Theorem featureKey_separates (f1 f2 : FeatureImportance.t) :
  (occurs "-" (FeatureImportance.rack f1) = false →
   occurs "-" (FeatureImportance.rack f2) = false →
   featureKey f1 = featureKey f2 →
   FeatureImportance.rack f1 = FeatureImportance.rack f2
   ∧ FeatureImportance.variable f1 = FeatureImportance.variable f2)
  ∧ ∃ g1 g2 : FeatureImportance.t,
      FeatureImportance.rack g1 ≠ FeatureImportance.rack g2
      ∧ FeatureImportance.variable g1 ≠ FeatureImportance.variable g2
      ∧ featureKey g1 = featureKey g2.
Proof.
  split; [unfold featureKey; apply append_dash_inj|].
  exists (demo_feature "A-1" "CPU" 0), (demo_feature "A" "1-CPU" 0).
  by repeat split.
Qed.

(** ** The analysis triggers *)

Lemma isLoading_set (b : bool) (st : DashboardState) :
  isLoading (set_isLoading b st) = b.
Proof. by destruct st. Qed.

Section Triggers.
Variable d3_extent : list float → float * float.
Variable d3_scaleLinear : float * float → float * float → float → float.
Variables innerWidth innerHeight : float.
Variable computeEmbedding :
  list ClassWeight.t → option ComputeEmbeddingResponse.t.
Variable analyzeClusters :
  list nat → list nat → matrix → matrix → matrix →
  option ClusterAnalysisResponse.t.
Variable interpretClusters :
  list FeatureImportance.t → nat → nat → option InterpretationResponse.t.

Ltac open_handleExecute := unfold handleExecute.
Ltac open_analyzeIfReady := unfold analyzeIfReady.
Ltac run_writes :=
  unfold run; cbn [foldl app dispatch];
  unfold setIsLoading, setEmbeddingData, setAnalysisResults, setInterpretation.

Abbreviation run := (run d3_extent d3_scaleLinear innerWidth innerHeight).
Abbreviation handleExecute :=
  (handleExecute computeEmbedding analyzeClusters interpretClusters).
Abbreviation analyzeIfReady := (analyzeIfReady analyzeClusters interpretClusters).

Lemma run_snoc (st : DashboardState) (writes : list Action) (a : Action) :
  run st (writes ++ [a])
  = dispatch d3_extent d3_scaleLinear innerWidth innerHeight (run st writes) a.
Proof. apply foldl_snoc. Qed.

(** X12: [handleExecute] writes nothing while there are no class weights;
    otherwise its first write raises the loading flag, its last write
    lowers it, and the flag is down once its writes are done, whichever
    service call failed and whatever the store held meanwhile. *)
Theorem handleExecute_releases_loading (st st' : DashboardState) :
  (classWeights st = [] → handleExecute st = [])
  ∧ (classWeights st ≠ [] →
     head (handleExecute st) = Some (SetIsLoading true)
     ∧ last (handleExecute st) = Some (SetIsLoading false)
     ∧ isLoading (run st' (handleExecute st)) = false).
Proof.
  open_handleExecute. split.
  - intros ->. reflexivity.
  - intros Hw. rewrite bool_decide_eq_false_2
      by (intros Hl; by apply length_zero_iff_nil in Hl).
    split; [reflexivity|]. rewrite app_comm_cons. split.
    + apply last_snoc.
    + rewrite run_snoc. cbn. apply isLoading_set.
Qed.

Ltac weights_present Hw :=
  rewrite bool_decide_eq_false_2
    by (intros Hl; by apply length_zero_iff_nil in Hl).

(** X13: a [handleExecute] whose embedding call fails changes nothing but
    the loading flag; one whose embedding call succeeds replaces the points
    and the retained matrices, empties the history and the comparison
    selection, and leaves the clusters as they were. *)
Theorem handleExecute_embedding_stage (st : DashboardState) :
  classWeights st ≠ [] →
  (computeEmbedding (classWeights st) = None →
   run st (handleExecute st) = setIsLoading false st)
  ∧ (∀ e : ComputeEmbeddingResponse.t,
       computeEmbedding (classWeights st) = Some e →
       embeddingData (run st (handleExecute st))
       = embeddingData
           (setEmbeddingData (ComputeEmbeddingResponse.embedding e)
              (ComputeEmbeddingResponse.labels e)
              (ComputeEmbeddingResponse.scaled_data e)
              (ComputeEmbeddingResponse.Ms e)
              (ComputeEmbeddingResponse.Mv e) st)
       ∧ scaledData (run st (handleExecute st))
         = Some (ComputeEmbeddingResponse.scaled_data e)
       ∧ Ms (run st (handleExecute st)) = Some (ComputeEmbeddingResponse.Ms e)
       ∧ Mv (run st (handleExecute st)) = Some (ComputeEmbeddingResponse.Mv e)
       ∧ analysisHistory (run st (handleExecute st)) = []
       ∧ selectedHistoryIds (run st (handleExecute st)) = []
       ∧ clusters (run st (handleExecute st)) = clusters st).
Proof.
  intros Hw. open_handleExecute. weights_present Hw. split.
  - intros ->. run_writes. by destruct st.
  - intros e ->. repeat case_match; run_writes; by destruct st.
Qed.


Ltac not_ready :=
  split;
  [ split;
    [ intros Hne; by destruct Hne
    | intros (H1 & H2 & H3 & H4 & H5);
      repeat match goal with
             | H : is_Some None |- _ => destruct H as [? [=]]
             end ]
  | split; [repeat split; by cbn | intros Hne; by destruct Hne] ].

(** X15: the automatic trigger writes something exactly when both
    clusters and the three retained outputs of an embedding are held; its
    writes never touch the points, the retained outputs, the clusters, the
    history or the comparison selection; and once they are done the loading
    flag is down if it wrote at all. *)
Theorem analyzeIfReady_guard_and_frame (st : DashboardState) :
  (analyzeIfReady st ≠ [] ↔
   is_Some (cluster1Of st) ∧ is_Some (cluster2Of st)
   ∧ is_Some (scaledData st) ∧ is_Some (Ms st) ∧ is_Some (Mv st))
  ∧ (embeddingData (run st (analyzeIfReady st)) = embeddingData st
     ∧ scaledData (run st (analyzeIfReady st)) = scaledData st
     ∧ Ms (run st (analyzeIfReady st)) = Ms st
     ∧ Mv (run st (analyzeIfReady st)) = Mv st
     ∧ clusters (run st (analyzeIfReady st)) = clusters st
     ∧ analysisHistory (run st (analyzeIfReady st)) = analysisHistory st
     ∧ selectedHistoryIds (run st (analyzeIfReady st)) = selectedHistoryIds st)
  ∧ (analyzeIfReady st ≠ [] → isLoading (run st (analyzeIfReady st)) = false).
Proof.
  open_analyzeIfReady. unfold cluster1Of, cluster2Of.
  destruct (ClusterSelection.cluster1 (clusters st)) as [c1|];
    [|not_ready].
  destruct (ClusterSelection.cluster2 (clusters st)) as [c2|];
    [|not_ready].
  destruct (scaledData st) as [sd|] eqn:Hsd; [|not_ready].
  destruct (Ms st) as [ms|] eqn:Hms; [|not_ready].
  destruct (Mv st) as [mv|] eqn:Hmv; [|not_ready].
  split; [|split].
  - split; [intros _; repeat split; by eexists|]. intros _. discriminate.
  - destruct (analyzeClusters c1 c2 sd ms mv) as [a|];
      [destruct (interpretClusters _ _ _)|];
      run_writes; destruct st; cbn in *; by subst.
  - intros _. rewrite app_comm_cons, run_snoc. cbn. apply isLoading_set.
Qed.


(** X17: with both clusters selected and no interpretation held, the
    summary tab says "Analysis in progress..." after an automatic trigger
    that stored no interpretation — because it did not run, or because a
    service call failed — although nothing is in progress any more. *)
Theorem in_progress_message_after_failure (st : DashboardState) :
  is_Some (cluster1Of st) → is_Some (cluster2Of st) →
  interpretation st = None → isLoading st = false →
  (∀ sections, SetInterpretation sections ∉ analyzeIfReady st) →
  SummaryTab (run st (analyzeIfReady st)) = Placeholder "Analysis in progress...".
Proof.
  unfold cluster1Of, cluster2Of. intros [c1 H1] [c2 H2] Hi Hl Hno.
  revert Hno. open_analyzeIfReady. rewrite H1, H2.
  destruct (scaledData st) as [sd|] eqn:Hsd;
    [destruct (Ms st) as [ms|] eqn:Hms;
     [destruct (Mv st) as [mv|] eqn:Hmv|]|];
    try (intros _; unfold SummaryTab; cbn; by rewrite H1, H2, Hi, Hl).
  destruct (analyzeClusters c1 c2 sd ms mv) as [a|];
    [destruct (interpretClusters _ _ _) as [r|]|]; intros Hno.
  - exfalso. apply (Hno (InterpretationResponse.sections r)).
    cbn. right. right. left.
  - run_writes. unfold SummaryTab. destruct st. cbn in *. subst.
    by rewrite H1, H2.
  - run_writes. unfold SummaryTab. destruct st. cbn in *. subst.
    by rewrite H1, H2.
Qed.

End Triggers.

(** ** Feature navigation *)

Lemma currentFeature_Some (st : DashboardState) :
  is_Some (currentFeature st) ↔
  ∃ features, topFeatures st = Some features
              ∧ 0 ≤ currentFeatureIndex st < Z.of_nat (length features).
Proof.
  unfold currentFeature. destruct (topFeatures st) as [features|]; cbn.
  - destruct (currentFeatureIndex st <? 0) eqn:Hneg.
    + apply Z.ltb_lt in Hneg. split; [intros [? [=]]|].
      intros (f & [= <-] & Hr). lia.
    + apply Z.ltb_ge in Hneg. rewrite lookup_lt_is_Some. split.
      * intros Hlt. exists features. split; [done|]. lia.
      * intros (f & [= <-] & Hr). lia.
  - split; [intros [? [=]]|]. intros (f & [=] & _).
Qed.

Lemma currentFeatureIndex_set (i : Z) (st : DashboardState) :
  currentFeatureIndex (set_currentFeatureIndex i st) = i
  ∧ topFeatures (set_currentFeatureIndex i st) = topFeatures st.
Proof. by destruct st. Qed.

Lemma set_currentFeatureIndex_back (i : Z) (st : DashboardState) :
  set_currentFeatureIndex (currentFeatureIndex st)
    (set_currentFeatureIndex i st) = st.
Proof. by destruct st. Qed.

(** X18: the previous and next buttons of the time series plot keep a
    shown feature shown: from an index inside the feature list they never
    lead outside it.  Next then previous, and previous then next, come back
    to the same state whenever the first step moved. *)
Theorem feature_navigation_in_range (st : DashboardState) :
  is_Some (currentFeature st) →
  is_Some (currentFeature (handleNext st))
  ∧ is_Some (currentFeature (handlePrev st))
  ∧ (handleNext st ≠ st → handlePrev (handleNext st) = st)
  ∧ (handlePrev st ≠ st → handleNext (handlePrev st) = st).
Proof.
  intros Hcur. pose proof Hcur as (features & Hf & Hr)%currentFeature_Some.
  assert (Hnext : handleNext st = st
                  ∨ (currentFeatureIndex st < Z.of_nat (length features) - 1
                     ∧ handleNext st
                       = set_currentFeatureIndex (currentFeatureIndex st + 1) st)).
  { unfold handleNext. rewrite Hf.
    destruct (currentFeatureIndex st <? Z.of_nat (length features) - 1) eqn:Hlt;
      [right|by left].
    apply Z.ltb_lt in Hlt. done. }
  assert (Hprev : handlePrev st = st
                  ∨ (0 < currentFeatureIndex st
                     ∧ handlePrev st
                       = set_currentFeatureIndex (currentFeatureIndex st - 1) st)).
  { unfold handlePrev.
    destruct (0 <? currentFeatureIndex st) eqn:Hlt; [right|by left].
    apply Z.ltb_lt in Hlt. done. }
  split; [|split; [|split]].
  - destruct Hnext as [-> | [Hlt ->]]; [done|].
    apply currentFeature_Some. exists features.
    destruct (currentFeatureIndex_set (currentFeatureIndex st + 1) st)
      as [-> ->].
    split; [done|lia].
  - destruct Hprev as [-> | [Hlt ->]]; [done|].
    apply currentFeature_Some. exists features.
    destruct (currentFeatureIndex_set (currentFeatureIndex st - 1) st)
      as [-> ->].
    split; [done|lia].
  - intros Hmoved. destruct Hnext as [Heq | [Hlt Heq]]; [done|].
    rewrite Heq. unfold handlePrev, setCurrentFeatureIndex.
    destruct (currentFeatureIndex_set (currentFeatureIndex st + 1) st)
      as [-> _].
    rewrite (proj2 (Z.ltb_lt _ _)) by lia.
    replace (currentFeatureIndex st + 1 - 1) with (currentFeatureIndex st)
      by lia.
    apply set_currentFeatureIndex_back.
  - intros Hmoved. destruct Hprev as [Heq | [Hlt Heq]]; [done|].
    rewrite Heq. unfold handleNext, setCurrentFeatureIndex.
    destruct (currentFeatureIndex_set (currentFeatureIndex st - 1) st)
      as [-> ->].
    rewrite Hf, (proj2 (Z.ltb_lt _ _)) by lia.
    replace (currentFeatureIndex st - 1 + 1) with (currentFeatureIndex st)
      by lia.
    apply set_currentFeatureIndex_back.
Qed.

(** ** The summary of a snapshot, continued *)

(** X19: bounds of the summary of a snapshot.  At most every feature is
    significant; there are as many top racks as features, up to 5; the top
    variables are distinct names of variables of the features, none when
    there is no feature; and no variable is more frequent among the
    features than the first top variable. *)
Theorem summary_bounds (features : list FeatureImportance.t) :
  plain_names features →
  (Summary.significant_count (analysisSummary features) ≤ length features)%nat
  ∧ length (Summary.top_racks (analysisSummary features))
    = (length features `min` 5)%nat
  ∧ NoDup (Summary.top_variables (analysisSummary features))
  ∧ (∀ v, v ∈ Summary.top_variables (analysisSummary features) →
          v ∈ variablesOf features)
  ∧ (Summary.top_variables (analysisSummary features) = [] ↔ features = [])
  ∧ (∀ top rest,
       Summary.top_variables (analysisSummary features) = top :: rest →
       ∀ v, v ∈ variablesOf features →
            (frequency features v ≤ frequency features top)%nat).
Proof.
  intros _. destruct (sortedVars_ranking features) as (Hnd & Hel & Hs).
  cbn [analysisSummary Summary.significant_count Summary.top_racks
       Summary.top_variables]. unfold slice_to, racks, slice_to.
  split; [apply length_filter|]. split.
  { rewrite length_fmap, length_take. lia. }
  split; [eapply sublist_NoDup; [exact Hnd|apply sublist_take]|].
  split.
  { intros v Hv. apply Hel. by apply (subseteq_take 3 (sortedVars features)). }
  split.
  - split.
    + intros Hnil. destruct features as [|f fs]; [done|exfalso].
      assert (FeatureImportance.variable f ∈ sortedVars (f :: fs)) as Hin
        by (apply Hel; left).
      destruct (sortedVars (f :: fs)) as [|v vs]; [by apply elem_of_nil in Hin|].
      discriminate Hnil.
    + intros ->. reflexivity.
  - intros top rest Htop v Hv. apply Hel in Hv.
    destruct (sortedVars features) as [|w ws]; [discriminate Htop|].
    injection Htop as -> _.
    apply StronglySorted_cons in Hs as [Hall _].
    apply elem_of_cons in Hv as [-> | Hv]; [done|].
    rewrite Forall_forall in Hall. destruct (Hall v Hv) as [Hlt | [Heq _]]; lia.
Qed.

(** ** Plain text of a section *)

Lemma append_length (s t : string) :
  String.length (s +:+ t) = (String.length s + String.length t)%nat.
Proof.
  induction s as [|c s IH]; [done|].
  rewrite append_String. cbn. by rewrite IH.
Qed.

Lemma replace_brackets_empty (fuel : nat) :
  replace_brackets fuel EmptyString = EmptyString.
Proof. by destruct fuel. Qed.

Lemma span_no_close_run (h rest : string) :
  occurs "]" h = false →
  span_no_close (h +:+ String "]" rest) = (h, String "]" rest).
Proof.
  induction h as [|c h IH]; [done|].
  cbn [occurs]. intros [Hc Hh]%orb_false_iff.
  rewrite append_String. cbn [span_no_close]. by rewrite Hc, (IH Hh).
Qed.

Lemma span_no_close_split (s run rest : string) :
  span_no_close s = (run, rest) → s = run +:+ rest.
Proof.
  revert run rest. induction s as [|c s IH]; intros run rest; cbn.
  - by intros [= <- <-].
  - destruct (Ascii.eqb c "]"); [by intros [= <- <-]|].
    destruct (span_no_close s) as [run' rest'] eqn:Hs.
    intros [= <- <-]. rewrite append_String. f_equal. by apply IH.
Qed.

Lemma replace_brackets_plain (p rest : string) (fuel : nat) :
  occurs "[" p = false →
  replace_brackets (String.length p + fuel) (p +:+ rest)
  = p +:+ replace_brackets fuel rest.
Proof.
  induction p as [|c p IH]; [done|].
  cbn [occurs]. intros [Hc Hp]%orb_false_iff.
  rewrite !append_String. cbn [String.length Nat.add replace_brackets].
  by rewrite Hc, (IH Hp).
Qed.

Lemma replace_brackets_highlight (h rest : string) (fuel : nat) :
  h ≠ EmptyString → occurs "]" h = false →
  replace_brackets (S fuel) ("[" +:+ h +:+ "]" +:+ rest)
  = h +:+ replace_brackets fuel rest.
Proof.
  intros Hne Hh. rewrite append_String, append_empty.
  cbn [replace_brackets]. rewrite Ascii.eqb_refl.
  rewrite (append_String "]" "" rest), append_empty.
  rewrite (span_no_close_run h rest Hh).
  destruct h as [|d h]; done.
Qed.

Lemma replace_brackets_markup (pieces : list Piece) (fuel : nat) :
  well_bracketed pieces →
  (String.length (markup pieces) ≤ fuel)%nat →
  replace_brackets fuel (markup pieces) = withoutBrackets pieces.
Proof.
  intros Hwf. revert fuel.
  induction Hwf as [|[s|h] pieces Hp Hwf IH]; intros fuel Hfuel; cbn.
  - apply replace_brackets_empty.
  - cbn in Hfuel. rewrite append_length in Hfuel.
    replace fuel with (String.length s + (fuel - String.length s))%nat by lia.
    rewrite (replace_brackets_plain _ _ _ Hp). f_equal. apply IH. lia.
  - destruct Hp as [Hne Hh]. cbn in Hfuel.
    rewrite !append_length in Hfuel. cbn in Hfuel.
    destruct fuel as [|fuel]; [lia|].
    rewrite (replace_brackets_highlight _ _ _ Hne Hh). f_equal. apply IH. lia.
Qed.

Lemma replace_brackets_length (fuel : nat) (s : string) :
  (String.length (replace_brackets fuel s) ≤ String.length s)%nat.
Proof.
  revert s. induction fuel as [|fuel IH]; intros s; [done|].
  destruct s as [|c t]; [done|]. cbn [replace_brackets].
  assert (Hkeep : (String.length (String c (replace_brackets fuel t))
                   ≤ String.length (String c t))%nat).
  { cbn. specialize (IH t). lia. }
  destruct (Ascii.eqb c "["); [|exact Hkeep].
  destruct (span_no_close t) as [run rest] eqn:Hs.
  destruct run as [|d run]; [exact Hkeep|].
  destruct rest as [|close rest]; [exact Hkeep|].
  apply span_no_close_split in Hs. rewrite Hs.
  cbn [String.length]. rewrite !append_length. cbn [String.length].
  specialize (IH rest). lia.
Qed.

(** X20: [renderPlainText] removes the brackets of a well-bracketed text
    and nothing else: written as plain stretches without ["["] and
    non-empty highlights without ["]"], the text comes out as the stretches
    and the highlights' contents in order.  The result is never longer than
    the text. *)
Theorem renderPlainText_strips_brackets (pieces : list Piece) :
  well_bracketed pieces →
  renderPlainText (markup pieces) = withoutBrackets pieces
  ∧ ∀ text : string,
      (String.length (renderPlainText text) ≤ String.length text)%nat.
Proof.
  intros Hwf. split.
  - by apply replace_brackets_markup.
  - intros text. apply replace_brackets_length.
Qed.

(** * The further properties on concrete inputs *)

Lemma brush_twice_witness :
  demo_brush left_half (demo_brush left_half demo_loaded)
  = demo_brush left_half demo_loaded.
Proof.
  apply (brush_twice_is_brush_once extent scaleLinear 100 100
           left_half demo_loaded).
  reflexivity.
Defined.

Lemma stale_results_witness :
  SummaryTab (demo_brush whole_plot demo_shown) = Sections [demo_card] true
  ∧ saveCurrentAnalysis 11 "r" 11 (demo_brush whole_plot demo_shown)
    = demo_brush whole_plot demo_shown.
Proof.
  destruct (stale_results_after_third_selection extent scaleLinear 100 100
              whole_plot demo_shown
              (demo_feature "A1" "AirIn" 0.01)
              (List.tl demo_features) demo_card [])
    as [Hview Hsave].
  - vm_compute. by eexists.
  - vm_compute. by eexists.
  - vm_compute. reflexivity.
  - vm_compute. reflexivity.
  - vm_compute. reflexivity.
  - by vm_compute.
  - split; [exact Hview|apply Hsave].
Defined.

Lemma updateWeight_witness :
  classWeights (updateWeight 1 (ClassWeight.mkPartial (Some 0.5%float) None None)
                  demo_shown)
  = [ClassWeight.mk 0 1 1; ClassWeight.mk 0.5 1 1; ClassWeight.mk 0 1 1]
  ∧ updateWeight 3 (ClassWeight.mkPartial (Some 0.5%float) None None) demo_shown
    = demo_shown.
Proof.
  destruct (updateWeight_touches_one_entry 3
              (ClassWeight.mkPartial (Some 0.5%float) None None) demo_shown)
    as (_ & _ & Hout).
  split; [reflexivity|]. apply Hout. right. vm_compute. discriminate.
Defined.

Lemma toggle_twice_witness :
  toggleHistorySelection "2-r" (toggleHistorySelection "2-r" ten_saved)
  = ten_saved
  ∧ selectedHistoryIds
      (toggleHistorySelection "2-r"
         (toggleHistorySelection "2-r" oldest_and_newest))
    = ["10-r"].
Proof.
  destruct (toggle_twice "2-r" ten_saved) as (_ & Hback & _).
  destruct (toggle_twice "2-r" oldest_and_newest) as (_ & _ & Hdrop).
  split.
  - apply Hback; [by_evaluation|vm_compute; lia].
  - apply (Hdrop "1-r" "10-r"); [by_evaluation|reflexivity].
Defined.

Lemma compare_needs_both_witness :
  is_Some (CompareTab oldest_and_newest)
  ∧ ¬ is_Some (CompareTab oldest_evicted).
Proof.
  split.
  - apply (compare_needs_both_in_history oldest_and_newest "1-r" "10-r");
      [by_evaluation|reflexivity|discriminate|].
    split; by_evaluation.
  - intros Hsome.
    apply (compare_needs_both_in_history oldest_evicted "1-r" "10-r")
      in Hsome as [Hold _]; [|by_evaluation|reflexivity|discriminate].
    revert Hold. by_evaluation.
Defined.

Lemma handleExecute_embedding_witness :
  demo_run demo_shown
    (handleExecute embedding_fails analysis_ok interpretation_fails demo_shown)
  = setIsLoading false demo_shown
  ∧ analysisHistory
      (demo_run ten_saved
         (handleExecute embedding_ok analysis_ok interpretation_fails
            (initializeWeights 3 ten_saved))) = [].
Proof.
  split.
  - apply (handleExecute_embedding_stage extent scaleLinear 100 100
             embedding_fails analysis_ok interpretation_fails demo_shown);
      [by vm_compute|reflexivity].
  - destruct (handleExecute_embedding_stage extent scaleLinear 100 100
                embedding_ok analysis_ok interpretation_fails
                (initializeWeights 3 ten_saved)) as [_ Hok];
      [by vm_compute|].
    destruct (Hok demo_response eq_refl) as (_ & _ & _ & _ & Hhist & _).
    exact Hhist.
Defined.



Lemma in_progress_message_witness :
  SummaryTab
    (demo_run both_filled
       (analyzeIfReady analysis_fails interpretation_fails both_filled))
  = Placeholder "Analysis in progress...".
Proof.
  apply (in_progress_message_after_failure extent scaleLinear 100 100
           analysis_fails interpretation_fails both_filled).
  - vm_compute. by eexists.
  - vm_compute. by eexists.
  - vm_compute. reflexivity.
  - vm_compute. reflexivity.
  - intros sections Hin. vm_compute in Hin.
    apply elem_of_cons in Hin as [Hin | Hin]; [discriminate Hin|].
    apply elem_of_cons in Hin as [Hin | Hin]; [discriminate Hin|].
    by apply elem_of_nil in Hin.
Defined.

Lemma feature_navigation_witness :
  is_Some (currentFeature (handleNext demo_shown))
  ∧ handlePrev (handleNext demo_shown) = demo_shown.
Proof.
  destruct (feature_navigation_in_range demo_shown)
    as (Hnext & _ & Hback & _).
  - vm_compute. by eexists.
  - split; [exact Hnext|]. apply Hback.
    intros Heq. apply (f_equal currentFeatureIndex) in Heq.
    vm_compute in Heq. discriminate Heq.
Defined.

Lemma summary_bounds_witness :
  (frequency demo_features "Water" ≤ frequency demo_features "CPU")%nat
  ∧ (Summary.significant_count (analysisSummary demo_features) ≤ 6)%nat.
Proof.
  destruct (summary_bounds demo_features)
    as (Hcount & _ & _ & _ & _ & Htop).
  - unfold plain_names. by_evaluation.
  - split; [|exact Hcount].
    apply (Htop "CPU" ["Water"; "AirIn"]); [reflexivity|].
    vm_compute. right. right. right. left.
Defined.

Lemma renderPlainText_witness :
  renderPlainText "Rack [A1] runs hotter in [CPU]"
  = "Rack A1 runs hotter in CPU".
Proof.
  apply (renderPlainText_strips_brackets demo_pieces).
  unfold well_bracketed, demo_pieces. repeat constructor; discriminate.
Defined.
